(** * SOL Auto Screener: scoring fusion and notification de-duplication

    A shallow embedding of the scoring core of the screener
    ([src/mania.py], [src/safety.py], [src/expectation.py], [src/state.py]
    and step 3 of [run_screening_cycle] in [main.py]) together with the
    properties its specification states about it.

    Conventions of the embedding:
    - Python [float]s are exact rationals ([Q]); [round(x, 1)] and the
      [:.0f] format round half to even, as CPython does on the exact value.
    - Python [int]s are [Z]; [str] is [string], holding the UTF-8 bytes of
      the source literals.
    - A [dict] read with [.get(key, default)] is a record of [option]
      fields ([None] = key absent); the notified map, keyed by token
      address, is a [gmap string _].
    - Timestamps are microseconds since the epoch ([Z]), the resolution of
      [datetime]; every [datetime.now()] is a fresh reading of a clock that
      lives in the modelled world.
    - Network fetches are inputs: the value the fetch returned. *)

From Stdlib Require Import Ascii String QArith Qround Qminmax ZArith Lia Lqa DecimalString Permutation Sorted.
From stdpp Require Import gmap strings list fin_maps.

Open Scope string_scope.

(** ** Numbers and strings of the Python runtime *)

Module Py.

Definition Qltb (a b : Q) : bool := negb (Qle_bool b a).
Definition Qgeb (a b : Q) : bool := Qle_bool b a.
Definition Qgtb (a b : Q) : bool := negb (Qle_bool a b).

(** Nearest integer, ties to the even one. *)
Definition round_half_even (q : Q) : Z :=
  let f := Qfloor q in
  match Qcompare (q - inject_Z f) (1 # 2) with
  | Lt => f
  | Gt => (f + 1)%Z
  | Eq => if Z.even f then f else (f + 1)%Z
  end.

(** [round(q, 1)] *)
Definition round1 (q : Q) : Q :=
  Qred (inject_Z (round_half_even (q * 10)) / 10).

(** [str(n)] for an [int] *)
Definition str (n : Z) : string := NilZero.string_of_int (Z.to_int n).

(** [f"{q:.0f}"]: a negative value that rounds to zero prints as [-0]. *)
Definition fmt0 (q : Q) : string :=
  let z := round_half_even q in
  if (z =? 0)%Z && Qltb q 0 then "-0" else str z.

Fixpoint commas_rev (ds : list ascii) (k : nat) : list ascii :=
  match ds with
  | [] => []
  | d :: ds' =>
      match k, ds' with
      | 2%nat, _ :: _ => d :: ","%char :: commas_rev ds' 0
      | _, _ => d :: commas_rev ds' (S k)
      end
  end.

(** [f"{n:,}"] for an [int] *)
Definition fmt_commas (n : Z) : string :=
  let digits := list_ascii_of_string (str (Z.abs n)) in
  let grouped := string_of_list_ascii (rev (commas_rev (rev digits) 0)) in
  if (n <? 0)%Z then "-" ++ grouped else grouped.

(** [s.rstrip('0')] *)
Fixpoint rstrip0 (s : string) : string :=
  match s with
  | "" => ""
  | String c s' =>
      match rstrip0 s' with
      | "" => if Ascii.eqb c "0" then "" else String c ""
      | r => String c r
      end
  end.

Definition lower_ascii (c : ascii) : ascii :=
  let n := nat_of_ascii c in
  if (65 <=? n)%nat && (n <=? 90)%nat then ascii_of_nat (n + 32) else c.

(** [s.lower()]. Only ASCII letters are folded: the tests made on the
    result look for ASCII needles, which no other letter's lower case
    can complete. *)
Fixpoint lower (s : string) : string :=
  match s with
  | "" => ""
  | String c s' => String (lower_ascii c) (lower s')
  end.

(** [needle in s] *)
Fixpoint contains (needle s : string) : bool :=
  String.prefix needle s ||
  match s with
  | "" => false
  | String _ s' => contains needle s'
  end.

Definition startswith (s p : string) : bool := String.prefix p s.

(** [l[:n]] for [n >= 0] *)
Definition slice_to {A} (n : nat) (l : list A) : list A := take n l.

(** [l[-n:]] for [n > 0] *)
Definition slice_last {A} (n : nat) (l : list A) : list A :=
  drop (length l - n) l.

(** [l.append(x)] *)
Definition append {A} (l : list A) (x : A) : list A := (l ++ [x])%list.

Definition Qsum (l : list Q) : Q := foldl Qplus 0%Q l.

(** [sorted(l, key=key, reverse=True)] and [l.sort(key=key, reverse=True)]:
    a stable sort, greatest key first, equal keys in their original
    order. *)
Section StableSort.
Context {A : Type} (key : A → Q).

Fixpoint insert_desc (x : A) (l : list A) : list A :=
  match l with
  | [] => [x]
  | y :: l' =>
      if Qltb (key x) (key y) then y :: insert_desc x l' else x :: l
  end.

Definition sort_desc (l : list A) : list A := foldr insert_desc [] l.
End StableSort.

(** A value or a raised exception. *)
Inductive exn := KeyError (k : Z).

Inductive result (A : Type) :=
| Ok (a : A)
| Raise (e : exn).
Arguments Ok {A} a.
Arguments Raise {A} e.

Definition bind {A B} (r : result A) (k : A → result B) : result B :=
  match r with
  | Ok a => k a
  | Raise e => Raise e
  end.

(** [d[k]] on a literal dict with integer keys *)
Definition getitem {V} (d : list (Z * V)) (k : Z) : result V :=
  match List.find (λ kv, (kv.1 =? k)%Z) d with
  | Some kv => Ok kv.2
  | None => Raise (KeyError k)
  end.

(** [d.get(k, default)] on the same *)
Definition get_default {V} (d : list (Z * V)) (k : Z) (default : V) : V :=
  match List.find (λ kv, (kv.1 =? k)%Z) d with
  | Some kv => kv.2
  | None => default
  end.

End Py.

(** ** Payloads of the collaborators *)

(** The raw social profile kept under the [_twitter_raw] score key. *)
Record TwitterRaw := {
  followers : option Z;
  following : option Z;
  tweets : option Z;
  likes : option Z;
}.

Definition no_twitter : TwitterRaw :=
  {| followers := None; following := None; tweets := None; likes := None |}.

(** One entry of a holder list: [{"owner": ..., "amount": ...}]. *)
Record Holder := {
  owner : option string;
  amount : option Q;
}.

(** ** [src/mania.py] *)

Module SmartMoneyAnalyzer.

Record Result := {
  smart_money_score : Z;
  smart_money_count : Z;
  dev_wallet_risk : string;
  holder_quality : Z;
}.

(** [KNOWN_SMART_WALLETS]: empty in the source. *)
Definition KNOWN_SMART_WALLETS : list string := [].

Definition amount_of (h : Holder) : Q := default 0%Q (amount h).
Definition owner_of (h : Holder) : string := default "" (owner h).

(** The [for h in top_holders] loop: the running [smart_count] and
    [dev_wallet_risk]. *)
Fixpoint scan (total_balance : Q) (hs : list Holder)
    (smart_count : Z) (risk : string) : Z * string :=
  match hs with
  | [] => (smart_count, risk)
  | h :: hs' =>
      let smart_count :=
        if bool_decide (owner_of h ∈ KNOWN_SMART_WALLETS)
        then (smart_count + 1)%Z else smart_count in
      let risk :=
        if Py.Qgtb total_balance 0 then
          let pct := (amount_of h / total_balance * 100)%Q in
          if Py.Qgtb pct 30 then "high" else risk
        else risk in
      scan total_balance hs' smart_count risk
  end.

Definition bucket (top1_pct : Q) : Z :=
  if Py.Qltb top1_pct 0.1 then 90
  else if Py.Qltb top1_pct 0.2 then 70
  else if Py.Qltb top1_pct 0.3 then 50
  else if Py.Qltb top1_pct 0.5 then 30
  else 10.

Definition defaults : Result :=
  {| smart_money_score := 0; smart_money_count := 0;
     dev_wallet_risk := "unknown"; holder_quality := 0 |}.

(** [analyze], given what [_get_holders] returned ([None]: a JSON null). *)
Definition analyze (holders : option (list Holder)) : Result :=
  match holders with
  | None | Some [] => defaults
  | Some holders =>
      let top_holders := Py.slice_to 20 holders in
      let total_balance := Py.Qsum (amount_of <$> top_holders) in
      let '(smart_count, risk) := scan total_balance top_holders 0 "unknown" in
      let quality :=
        if Py.Qgtb total_balance 0 && (1 <? length top_holders)%nat then
          let balances := Py.sort_desc id (amount_of <$> top_holders) in
          let top1_pct := (hd 0 balances / total_balance)%Q in
          bucket top1_pct
        else 0%Z in
      {| smart_money_score := Z.min 100 (smart_count * 25);
         smart_money_count := smart_count;
         dev_wallet_risk := risk;
         holder_quality := quality |}
  end.

End SmartMoneyAnalyzer.

Module SocialVelocityAnalyzer.

Record Result := {
  velocity_score : Q;
  followers_per_day : Q;
  age_days : Q;
}.

Definition defaults : Result :=
  {| velocity_score := 0; followers_per_day := 0; age_days := 0 |}.

Section WithLog.
(** [math.log10], left abstract. *)
Variable log10 : Q → Q.

(** [analyze]; [now] is the clock reading, [created_at] the project's
    creation time, both in microseconds. *)
Definition analyze (now created_at : Z) (twitter_raw : TwitterRaw) : Result :=
  let followers := default 0%Z (followers twitter_raw) in
  if (followers =? 0)%Z then defaults
  else
    let age := (inject_Z (now - created_at) / 1000000 / 86400)%Q in
    let age := Qmax age 0.1 in
    let fpd := (inject_Z followers / age)%Q in
    let velocity :=
      if Py.Qgtb fpd 0 then Qmin 100 (log10 (Qmax 1 fpd) * 33) else 0%Q in
    let velocity :=
      if Py.Qltb age 3 && (500 <? followers)%Z
      then Qmin 100 (velocity * 1.5) else velocity in
    let velocity :=
      if Py.Qgtb age 30 && (followers <? 100)%Z
      then (velocity * 0.3)%Q else velocity in
    {| velocity_score := Py.round1 velocity;
       followers_per_day := Py.round1 fpd;
       age_days := Py.round1 age |}.
End WithLog.

End SocialVelocityAnalyzer.

Module BotDetector.

Record Result := {
  bot_risk : string;
  bot_score : Z;
  indicators : list string;
}.

Definition defaults : Result :=
  {| bot_risk := "low"; bot_score := 0; indicators := [] |}.

Definition trailing_zeros (n : Z) : nat :=
  let s := Py.str n in
  (String.length s - String.length (Py.rstrip0 s))%nat.

(** The running [(bot_score, indicators)] after each of the four tests. *)
Definition step_ratio (followers following : Z) (acc : Z * list string) :=
  let ratio := (inject_Z followers / inject_Z following)%Q in
  if Py.Qgtb ratio 100 && (10000 <? followers)%Z then acc
  else if Py.Qltb ratio 0.5 && (1000 <? followers)%Z
  then ((acc.1 + 25)%Z, Py.append acc.2 "フォロー数がフォロワーより多い")
  else acc.

Definition step_tweets (followers tweets : Z) (acc : Z * list string) :=
  if (5000 <? followers)%Z && (tweets <? 10)%Z
  then ((acc.1 + 30)%Z,
        Py.append acc.2
          ("フォロワー" ++ Py.fmt_commas followers ++ "に対しツイート"
             ++ Py.str tweets ++ "件"))
  else acc.

Definition step_engagement (followers tweets likes : Z) (acc : Z * list string) :=
  if (0 <? tweets)%Z then
    let engagement_per_tweet := (inject_Z likes / inject_Z tweets)%Q in
    if (1000 <? followers)%Z && Py.Qltb engagement_per_tweet 1
    then ((acc.1 + 20)%Z, Py.append acc.2 "ツイートあたりのいいねが極端に少ない")
    else acc
  else acc.

Definition step_round_number (followers : Z) (acc : Z * list string) :=
  if (500 <? followers)%Z then
    if (3 <=? trailing_zeros followers)%nat
    then ((acc.1 + 15)%Z,
          Py.append acc.2
            ("フォロワー数がキリ番（" ++ Py.fmt_commas followers ++ "）"))
    else acc
  else acc.

Definition analyze (twitter_raw : TwitterRaw) : Result :=
  let followers := default 0%Z (followers twitter_raw) in
  let following :=
    let f := default 1%Z (following twitter_raw) in
    if (f =? 0)%Z then 1%Z else f in
  let tweets := default 0%Z (tweets twitter_raw) in
  let likes := default 0%Z (likes twitter_raw) in
  if (followers =? 0)%Z then defaults
  else
    let acc := (0%Z, []) in
    let acc := step_ratio followers following acc in
    let acc := step_tweets followers tweets acc in
    let acc := step_engagement followers tweets likes acc in
    let acc := step_round_number followers acc in
    let bot_score := acc.1 in
    {| bot_risk :=
         if (50 <=? bot_score)%Z then "high"
         else if (25 <=? bot_score)%Z then "medium"
         else "low";
       bot_score := Z.min 100 bot_score;
       indicators := acc.2 |}.

End BotDetector.

Module ManiaScorer.

(** The [_mania_raw] payload. *)
Record Raw := {
  raw_smart_money : SmartMoneyAnalyzer.Result;
  raw_velocity : SocialVelocityAnalyzer.Result;
  raw_bot : BotDetector.Result;
}.

(** The dict [enhance_scores] returns. *)
Record Scores := {
  smart_money : Z;
  holder_quality : Z;
  social_velocity : Q;
  bot_penalty : Q;
  _mania_raw : Raw;
  mania_total : Q;
}.

Section WithLog.
Variable log10 : Q → Q.

(** [enhance_scores]: [holders] is what the holder fetch returned for
    the project, [now] the clock reading of the velocity analysis. *)
Definition enhance_scores (holders : option (list Holder)) (now : Z)
    (created_at : Z) (twitter_raw : option TwitterRaw) : Scores :=
  let twitter_raw := default no_twitter twitter_raw in
  let smart_money_result := SmartMoneyAnalyzer.analyze holders in
  let velocity_result :=
    SocialVelocityAnalyzer.analyze log10 now created_at twitter_raw in
  let bot_result := BotDetector.analyze twitter_raw in
  let smart_money := SmartMoneyAnalyzer.smart_money_score smart_money_result in
  let holder_quality := SmartMoneyAnalyzer.holder_quality smart_money_result in
  let social_velocity := SocialVelocityAnalyzer.velocity_score velocity_result in
  let bot_penalty := (- inject_Z (BotDetector.bot_score bot_result) * 0.3)%Q in
  let mania_total :=
    (inject_Z smart_money * 0.2 +
     inject_Z holder_quality * 0.3 +
     social_velocity * 0.3 +
     Qmax 0 (50 + bot_penalty) * 0.2)%Q in
  {| smart_money := smart_money;
     holder_quality := holder_quality;
     social_velocity := social_velocity;
     bot_penalty := bot_penalty;
     _mania_raw :=
       {| raw_smart_money := smart_money_result;
          raw_velocity := velocity_result;
          raw_bot := bot_result |};
     mania_total := Py.round1 mania_total |}.
End WithLog.

End ManiaScorer.

(** ** [SolanaProject] (declared in [src/scanner.py]): the fields the core
    reads and writes. *)

Module Scanner.

(** The [scores] dict: the reserved raw social payload and, once step 3
    has run [scores.update(ms)], the mania keys. *)
Record ScoreMap := {
  _twitter_raw : option TwitterRaw;
  mania : option ManiaScorer.Scores;
}.

Record SolanaProject := {
  token_address : string;
  symbol : string;
  name : string;
  created_at : Z;
  liquidity_usd : Q;
  volume_24h_usd : Q;
  total_score : Q;
  scores : ScoreMap;
}.

End Scanner.

(** ** [src/safety.py] *)

Module SafetyChecker.

(** One finding of a RugCheck report. *)
Record Risk := {
  name : option string;
  level : option string;
  description : option string;
}.

Record TopHolder := { pct : option Q }.

(** The report dict; [other_keys] tells whether it holds keys besides
    the three that [check] reads. *)
Record Report := {
  score : option Q;
  risks : option (list Risk);
  topHolders : option (list TopHolder);
  other_keys : bool;
}.

(** [{}], what [_rugcheck] returns on any failure. *)
Definition empty_report : Report :=
  {| score := None; risks := None; topHolders := None; other_keys := false |}.

(** Truth value of the dict: it has a key. *)
Definition truthy (r : Report) : bool :=
  bool_decide (is_Some (score r)) || bool_decide (is_Some (risks r))
  || bool_decide (is_Some (topHolders r)) || other_keys r.

Record Safety := {
  is_safe : bool;
  risk_level : string;
  warnings : list string;
  rugcheck_score : option Q;
  mint_authority : option string;
  lp_locked : option bool;
  top_holders_pct : option Q;
}.

Definition name_of (r : Risk) : string := default "" (name r).

Definition is_severe (lvl : option string) : bool :=
  match lvl with
  | Some l => String.eqb l "danger" || String.eqb l "critical"
  | None => false
  end.

(** The [for risk in risks] loop. *)
Fixpoint classify (risks : list Risk) (warnings : list string) : list string :=
  match risks with
  | [] => warnings
  | risk :: risks' =>
      let name := name_of risk in
      let level := default "" (level risk) in
      let desc := default "" (description risk) in
      let warnings :=
        if String.eqb level "danger" || String.eqb level "critical"
        then Py.append warnings ("🔴 " ++ name ++ ": " ++ desc)
        else if String.eqb level "warn"
        then Py.append warnings ("🟡 " ++ name ++ ": " ++ desc)
        else warnings in
      classify risks' warnings
  end.

Definition danger_count (warnings : list string) : nat :=
  length (filter (λ w, Py.startswith w "🔴" = true) warnings).

Definition warn_count (warnings : list string) : nat :=
  length (filter (λ w, Py.startswith w "🟡" = true) warnings).

(** [check], given what [_rugcheck] returned. *)
Definition check (rugcheck : Report) : Safety :=
  if truthy rugcheck then
    let score := default 0%Q (score rugcheck) in
    let risks := default [] (risks rugcheck) in
    let warnings := classify risks [] in
    let has_mint := existsb (λ r, Py.contains "mint" (Py.lower (name_of r))) risks in
    let warnings :=
      if has_mint then Py.append warnings "🔴 ミント権限が放棄されていない"
      else warnings in
    let lp_locked :=
      negb (existsb (λ r, Py.contains "lp" (Py.lower (name_of r))
                           && is_severe (level r)) risks) in
    let warnings :=
      if lp_locked then warnings
      else Py.append warnings "🔴 LP未ロック（ラグプルリスク）" in
    let top_holders := default [] (topHolders rugcheck) in
    let total_pct :=
      Py.Qsum ((λ h, default 0%Q (pct h)) <$> Py.slice_to 10 top_holders) in
    let warnings :=
      match top_holders with
      | [] => warnings
      | _ :: _ =>
          if Py.Qgtb total_pct 50
          then Py.append warnings
                 ("🔴 上位10ホルダーが" ++ Py.fmt0 total_pct ++ "%保有（集中リスク）")
          else if Py.Qgtb total_pct 30
          then Py.append warnings ("🟡 上位10ホルダーが" ++ Py.fmt0 total_pct ++ "%保有")
          else warnings
      end in
    let danger_count := danger_count warnings in
    let warn_count := warn_count warnings in
    {| is_safe := negb (2 <=? danger_count)%nat;
       risk_level :=
         if (2 <=? danger_count)%nat then "danger"
         else if (1 <=? danger_count)%nat then "warning"
         else if (2 <=? warn_count)%nat then "warning"
         else "safe";
       warnings := warnings;
       rugcheck_score := Some score;
       mint_authority := if has_mint then Some "active" else None;
       lp_locked := Some lp_locked;
       top_holders_pct :=
         match top_holders with
         | [] => None
         | _ :: _ => Some (Py.round1 total_pct)
         end |}
  else
    {| is_safe := true; risk_level := "unknown"; warnings := [];
       rugcheck_score := None; mint_authority := None; lp_locked := None;
       top_holders_pct := None |}.

(** The loop of [check_multiple]: [rugcheck_of i] is what [_rugcheck]
    returns for the [i]-th project, [results] the dict built so far. On
    well-typed reports [check] raises nothing, so the fallback dict of the
    [except] branch is not stored. *)
Fixpoint check_multiple_loop (rugcheck_of : nat → Report) (i : nat)
    (projects : list Scanner.SolanaProject) (results : gmap string Safety)
    : gmap string Safety :=
  match projects with
  | [] => results
  | p :: projects' =>
      check_multiple_loop rugcheck_of (S i) projects'
        (<[Scanner.token_address p := check (rugcheck_of i)]> results)
  end.

Definition check_multiple (rugcheck_of : nat → Report)
    (projects : list Scanner.SolanaProject) : gmap string Safety :=
  check_multiple_loop rugcheck_of 0 projects ∅.

End SafetyChecker.
(** ** [src/expectation.py] *)

Module ExpectationCalculator.

Record ExpectationValue := {
  heat_level : Z;
  heat_label : string;
  confidence : Q;
  position_pct : Q;
  position_label : string;
  risk_reward : string;
  reasoning : list string;
}.

(** The keys [calculate] reads from its dict arguments. *)
Record BotDict := { bot_risk : option string }.
Record RawDict := { bot : option BotDict }.
Record ManiaDict := {
  mania_total : option Q;
  _mania_raw : option RawDict;
}.
Record SafetyDict := { risk_level : option string }.

Definition POSITION_TABLE : list (Z * (Q * string)) :=
  [ (5%Z, (10.0%Q, "強め（10%）"));
    (4%Z, (5.0%Q, "標準（5%）"));
    (3%Z, (2.0%Q, "少額（2%）"));
    (2%Z, (0.5%Q, "最小（0.5%）"));
    (1%Z, (0.0%Q, "見送り")) ].

Definition heat_labels : list (Z * string) :=
  [ (5%Z, "🔥🔥🔥🔥🔥 超高"); (4%Z, "🔥🔥🔥🔥 高"); (3%Z, "🔥🔥🔥 中");
    (2%Z, "🔥🔥 低"); (1%Z, "🔥 様子見") ].

(** Step 1: [base_heat] and the reasoning list after it. *)
Definition base_step (total_score : Q) (reasoning : list string) : Z * list string :=
  let s := "スコア" ++ Py.fmt0 total_score in
  if Py.Qgeb total_score 75 then (5%Z, Py.append reasoning (s ++ "/100（非常に高い）"))
  else if Py.Qgeb total_score 60 then (4%Z, Py.append reasoning (s ++ "/100（高い）"))
  else if Py.Qgeb total_score 45 then (3%Z, Py.append reasoning (s ++ "/100（中程度）"))
  else if Py.Qgeb total_score 30 then (2%Z, Py.append reasoning (s ++ "/100（低め）"))
  else (1%Z, Py.append reasoning (s ++ "/100（低い）")).

(** Step 2: [safety_modifier]. *)
Definition safety_step (risk_level : string) (reasoning : list string) : Z * list string :=
  if String.eqb risk_level "danger"
  then ((-2)%Z, Py.append reasoning "🔴 安全性DANGER（大幅減点）")
  else if String.eqb risk_level "warning"
  then ((-1)%Z, Py.append reasoning "🟡 安全性WARNING（減点）")
  else if String.eqb risk_level "safe"
  then (0%Z, Py.append reasoning "🟢 安全性OK")
  else (0%Z, reasoning).

(** Step 3: [mania_modifier], the bot deduction included. *)
Definition mania_step (mania_total : Q) (bot_risk : string)
    (reasoning : list string) : Z * list string :=
  let '(mania_modifier, reasoning) :=
    if Py.Qgeb mania_total 70
    then (1%Z, Py.append reasoning
                 ("マニア基準" ++ Py.fmt0 mania_total ++ "（高評価、ボーナス）"))
    else if Qle_bool mania_total 20
    then ((-1)%Z, Py.append reasoning
                    ("マニア基準" ++ Py.fmt0 mania_total ++ "（低評価、減点）"))
    else (0%Z, reasoning) in
  if String.eqb bot_risk "high"
  then ((mania_modifier - 1)%Z, Py.append reasoning "🤖 Bot水増し疑い（減点）")
  else (mania_modifier, reasoning).

(** Step 4: [trust_modifier]. *)
Definition trust_step (trust_score : option Q) (reasoning : list string) : Z * list string :=
  match trust_score with
  | Some trust_score =>
      if Py.Qgeb trust_score 70
      then (1%Z, Py.append reasoning
                   ("プロジェクト信頼度" ++ Py.fmt0 trust_score ++ "（高い）"))
      else if Qle_bool trust_score 30
      then ((-1)%Z, Py.append reasoning
                      ("プロジェクト信頼度" ++ Py.fmt0 trust_score ++ "（低い）"))
      else (0%Z, reasoning)
  | None => (0%Z, reasoning)
  end.

(** Step 5: [market_modifier]. *)
Definition market_step (sol_price_trend : option string)
    (reasoning : list string) : Z * list string :=
  match sol_price_trend with
  | Some trend =>
      if String.eqb trend "bullish"
      then (1%Z, Py.append reasoning "SOL上昇トレンド（ボーナス）")
      else if String.eqb trend "bearish"
      then ((-1)%Z, Py.append reasoning "SOL下落トレンド（減点）")
      else (0%Z, reasoning)
  | None => (0%Z, reasoning)
  end.

Definition final_heat_of (base_heat safety_modifier mania_modifier
    trust_modifier market_modifier : Z) : Z :=
  Z.max 1 (Z.min 5 (base_heat + safety_modifier + mania_modifier
                    + trust_modifier + market_modifier)).

(** The agreement of the factors: 100 less 15 times their variance. *)
Definition confidence_of (factors : list Z) : Q :=
  let fs := inject_Z <$> factors in
  let len := inject_Z (Z.of_nat (length fs)) in
  let avg := (Py.Qsum fs / len)%Q in
  let variance := (Py.Qsum ((λ f, (f - avg) ^ 2) <$> fs) / len)%Q in
  Qmax 10 (Qmin 100 (100 - variance * 15)).

Definition risk_reward_of (final_heat : Z) (risk_level : string) : string :=
  if (4 <=? final_heat)%Z
     && (String.eqb risk_level "safe" || String.eqb risk_level "unknown")
  then "高リターン期待・リスク管理済み"
  else if (4 <=? final_heat)%Z && String.eqb risk_level "warning"
  then "ハイリスク・ハイリターン"
  else if (final_heat <=? 2)%Z
  then "ローリターン・リスク高め"
  else "標準的なリスク・リターン".

Definition risk_level_of (safety_result : option SafetyDict) : string :=
  default "unknown" (safety_result ≫= risk_level).

Definition mania_total_of (mania_scores : option ManiaDict) : Q :=
  default 0%Q (mania_scores ≫= mania_total).

Definition bot_risk_of (mania_scores : option ManiaDict) : string :=
  let raw := default {| bot := None |} (mania_scores ≫= _mania_raw) in
  let bot := default {| bot_risk := None |} (bot raw) in
  default "low" (bot_risk bot).

Definition calculate (total_score : Q)
    (safety_result : option SafetyDict)
    (mania_scores : option ManiaDict)
    (trust_score : option Q)
    (sol_price_trend : option string) : Py.result ExpectationValue :=
  let reasoning := [] in
  let '(base_heat, reasoning) := base_step total_score reasoning in
  let risk_level := risk_level_of safety_result in
  let '(safety_modifier, reasoning) := safety_step risk_level reasoning in
  let mania_total := mania_total_of mania_scores in
  let bot_risk := bot_risk_of mania_scores in
  let '(mania_modifier, reasoning) := mania_step mania_total bot_risk reasoning in
  let '(trust_modifier, reasoning) := trust_step trust_score reasoning in
  let '(market_modifier, reasoning) := market_step sol_price_trend reasoning in
  let final_heat :=
    final_heat_of base_heat safety_modifier mania_modifier
      trust_modifier market_modifier in
  let factors :=
    [base_heat; 3 + safety_modifier; 3 + mania_modifier; 3 + trust_modifier]%Z in
  let confidence := confidence_of factors in
  Py.bind (Py.getitem POSITION_TABLE 1) (λ fallback,
  let pos := Py.get_default POSITION_TABLE final_heat fallback in
  let rr := risk_reward_of final_heat risk_level in
  Py.bind (Py.getitem heat_labels final_heat) (λ label,
  Py.Ok {| heat_level := final_heat;
           heat_label := label;
           confidence := Py.round1 confidence;
           position_pct := pos.1;
           position_label := pos.2;
           risk_reward := rr;
           reasoning := reasoning |})).

End ExpectationCalculator.
(** ** [src/state.py] *)

Module StateManager.
Import Scanner.

(** A value of the [notified] dict; [score] is [None] when the record
    has no ["score"] key. *)
Record Entry := {
  e_symbol : string;
  e_name : string;
  e_score : option Q;
  last_notified : Z;
}.

Record TopEntry := {
  t_symbol : string;
  t_name : string;
  t_address : string;
  t_score : Q;
  t_liquidity_usd : Q;
  t_volume_24h_usd : Q;
}.

Record ScanRecord := {
  timestamp : Z;
  count : nat;
  top : list TopEntry;
}.

(** What a method can see and change: [self.state["notified"]],
    [self.history["scans"]], and the wall clock, whose [tick]-th reading
    is [time tick]. The JSON files written by [_save] are not part of
    the model. *)
Record World := {
  notified : gmap string Entry;
  scans : list ScanRecord;
  time : nat → Z;
  tick : nat;
}.

(** Computations on the world. *)
Definition M (A : Type) : Type := World → A * World.

Definition ret {A} (a : A) : M A := λ w, (a, w).

Definition bind {A B} (c : M A) (k : A → M B) : M B :=
  λ w, let '(a, w') := c w in k a w'.

Notation "x <- c ;; k" := (bind c (λ x, k))
  (at level 100, c at next level, right associativity).
Notation "c ;;; k" := (bind c (λ _, k))
  (at level 100, right associativity).

(** [datetime.now(timezone.utc)] *)
Definition datetime_now : M Z :=
  λ w, (time w (tick w),
        {| notified := notified w; scans := scans w;
           time := time w; tick := S (tick w) |}).

Definition get_notified : M (gmap string Entry) := λ w, (notified w, w).

Definition set_notified (m : gmap string Entry) : M unit :=
  λ w, (tt, {| notified := m; scans := scans w;
               time := time w; tick := tick w |}).

Definition get_scans : M (list ScanRecord) := λ w, (scans w, w).

Definition set_scans (l : list ScanRecord) : M unit :=
  λ w, (tt, {| notified := notified w; scans := l;
               time := time w; tick := tick w |}).

(** [timedelta(hours=h)] and [timedelta(days=d)], in microseconds *)
Definition hours (h : Z) : Z := (h * 3600 * 1000000)%Z.
Definition days (d : Z) : Z := (d * 86400 * 1000000)%Z.

(** The loop of [filter_new]; [new] is the list built so far. *)
Fixpoint filter_loop (notified : gmap string Entry)
    (projects new : list SolanaProject) : M (list SolanaProject) :=
  match projects with
  | [] => ret new
  | p :: projects' =>
      match notified !! token_address p with
      | Some prev =>
          now <- datetime_now ;;
          if (now - last_notified prev <? hours 24)%Z
          then filter_loop notified projects' new
          else filter_loop notified projects' (Py.append new p)
      | None => filter_loop notified projects' (Py.append new p)
      end
  end.

Definition filter_new (projects : list SolanaProject) : M (list SolanaProject) :=
  notified <- get_notified ;;
  filter_loop notified projects [].

Definition _cleanup_old_entries : M unit :=
  now <- datetime_now ;;
  let cutoff := (now - days 7)%Z in
  notified <- get_notified ;;
  set_notified (filter (λ kv, (cutoff < last_notified kv.2)%Z) notified).

(** The loop of [mark_notified]. *)
Fixpoint mark_loop (now : Z) (projects : list SolanaProject) : M unit :=
  match projects with
  | [] => ret tt
  | p :: projects' =>
      notified <- get_notified ;;
      set_notified
        (<[token_address p :=
             {| e_symbol := symbol p; e_name := name p;
                e_score := Some (total_score p);
                last_notified := now |}]> notified) ;;;
      mark_loop now projects'
  end.

Definition mark_notified (projects : list SolanaProject) : M unit :=
  now <- datetime_now ;;
  mark_loop now projects ;;;
  _cleanup_old_entries.

(** A value of the dict [get_score_changes] returns. *)
Record Change := {
  prev : option Q;
  diff : option Q;
}.

(** The loop of [get_score_changes]; [changes] is the dict built so far. *)
Fixpoint changes_loop (notified : gmap string Entry)
    (projects : list SolanaProject) (changes : gmap string Change)
    : gmap string Change :=
  match projects with
  | [] => changes
  | p :: projects' =>
      let entry :=
        match notified !! token_address p ≫= e_score with
        | Some s =>
            {| prev := Some s; diff := Some (Py.round1 (total_score p - s)) |}
        | None => {| prev := None; diff := None |}
        end in
      changes_loop notified projects' (<[token_address p := entry]> changes)
  end.

Definition get_score_changes (projects : list SolanaProject)
    : M (gmap string Change) :=
  notified <- get_notified ;;
  ret (changes_loop notified projects ∅).

Definition snapshot (p : SolanaProject) : TopEntry :=
  {| t_symbol := symbol p; t_name := name p; t_address := token_address p;
     t_score := total_score p; t_liquidity_usd := liquidity_usd p;
     t_volume_24h_usd := volume_24h_usd p |}.

Definition save_scan (projects : list SolanaProject) : M unit :=
  now <- datetime_now ;;
  let scan_record :=
    {| timestamp := now; count := length projects;
       top := snapshot <$> projects |} in
  scans <- get_scans ;;
  set_scans (Py.append scans scan_record) ;;;
  scans <- get_scans ;;
  if (100 <? length scans)%nat
  then set_scans (Py.slice_last 100 scans)
  else ret tt.

End StateManager.

(** ** [src/monitors.py] *)

Module WalletTracker.

(** One entry of the answer to [getSignaturesForAddress]: [signature],
    the truth value of [err], [blockTime]. *)
Record SigInfo := {
  sig_signature : option string;
  sig_err : bool;
  sig_blockTime : option Z;
}.

(** The [timestamp] of an activity: [datetime.fromtimestamp(blockTime)],
    or the clock at detection. *)
Inductive Stamp :=
  | FromBlock (blockTime : Z)
  | Now.

Record WalletActivity := {
  wallet : string;
  label : string;
  action : string;
  token_address : string;
  token_symbol : string;
  amount_sol : Q;
  amount_usd : Q;
  signature : string;
  timestamp : Stamp;
}.

(** [sig_info.get("signature", "")] *)
Definition signature_of (sig_info : SigInfo) : string :=
  default "" (sig_signature sig_info).

(** The activity [_check_wallet] appends for [sig_info]. *)
Definition activity_of (address label : string) (sig_info : SigInfo)
    : WalletActivity :=
  {| wallet := address; label := label; action := "transaction";
     token_address := ""; token_symbol := ""; amount_sol := 0; amount_usd := 0;
     signature := signature_of sig_info;
     timestamp :=
       match sig_blockTime sig_info with
       | Some t => if (t =? 0)%Z then Now else FromBlock t
       | None => Now
       end |}.

(** The loop of [_check_wallet] over [sigs]: it breaks at the signature
    seen last and skips failed transactions. *)
Fixpoint sig_loop (address label : string) (last_seen : option string)
    (sigs : list SigInfo) (activities : list WalletActivity)
    : list WalletActivity :=
  match sigs with
  | [] => activities
  | sig_info :: sigs' =>
      if bool_decide (Some (signature_of sig_info) = last_seen) then activities
      else if sig_err sig_info
      then sig_loop address label last_seen sigs' activities
      else sig_loop address label last_seen sigs'
             (Py.append activities (activity_of address label sig_info))
  end.

(** [_check_wallet]: [response] is [None] when the POST fails or does not
    answer 200, and otherwise [data.get("result", [])]; the second
    component is [self.last_signatures] after the call. *)
Definition _check_wallet (address label : string)
    (response : option (list SigInfo)) (last_signatures : gmap string string)
    : list WalletActivity * gmap string string :=
  match response with
  | None => ([], last_signatures)
  | Some sigs =>
      let last_seen := last_signatures !! address in
      let activities := sig_loop address label last_seen sigs [] in
      match sigs with
      | [] => (activities, last_signatures)
      | sig_info :: _ =>
          (activities, <[address := signature_of sig_info]> last_signatures)
      end
  end.

(** The loop of [check_all] over [self.watch_list.items()]: [fetch i] is
    the answer to the [i]-th POST. *)
Fixpoint check_loop (fetch : nat → option (list SigInfo)) (i : nat)
    (watch_list : list (string * string)) (activities : list WalletActivity)
    (last_signatures : gmap string string)
    : list WalletActivity * gmap string string :=
  match watch_list with
  | [] => (activities, last_signatures)
  | (addr, label) :: watch_list' =>
      let '(new_activities, last_signatures) :=
        _check_wallet addr label (fetch i) last_signatures in
      check_loop fetch (S i) watch_list' (activities ++ new_activities)%list
        last_signatures
  end.

Definition check_all (fetch : nat → option (list SigInfo))
    (watch_list : list (string * string)) (last_signatures : gmap string string)
    : list WalletActivity * gmap string string :=
  match watch_list with
  | [] => ([], last_signatures)
  | _ :: _ => check_loop fetch 0 watch_list [] last_signatures
  end.

End WalletTracker.

Module LiquidityMonitor.

(** One pair of a DexScreener answer: [liquidity.usd],
    [baseToken.symbol], [pairAddress]. *)
Record Pair := {
  liquidity_usd : option Q;
  symbol : option string;
  pairAddress : option string;
}.

Record LiquidityAlert := {
  token_address : string;
  token_symbol : string;
  alert_type : string;
  prev_liquidity : Q;
  current_liquidity : Q;
  change_pct : Q;
  pair_address : string;
}.

(** [_check_token]: [response] is [None] when the GET fails or does not
    answer 200, and otherwise [data.get("pairs", [])]; the second
    component is [self.prev_liquidity] after the call. *)
Definition _check_token (token : string) (response : option (list Pair))
    (prev_liquidity : gmap string Q) : option LiquidityAlert * gmap string Q :=
  match response with
  | None | Some [] => (None, prev_liquidity)
  | Some (pair0 :: _) =>
      let current := default 0%Q (liquidity_usd pair0) in
      let symbol := default "???" (symbol pair0) in
      let pair_addr := default "" (pairAddress pair0) in
      let prev := prev_liquidity !! token in
      let prev_liquidity := <[token := current]> prev_liquidity in
      match prev with
      | None => (None, prev_liquidity)
      | Some prev =>
          if Qeq_bool prev 0 then (None, prev_liquidity)
          else
            let change_pct := ((current - prev) / prev * 100)%Q in
            let alert (alert_type : string) :=
              Some {| token_address := token; token_symbol := symbol;
                      alert_type := alert_type;
                      prev_liquidity := prev; current_liquidity := current;
                      change_pct := Py.round1 change_pct;
                      pair_address := pair_addr |} in
            if Qle_bool change_pct (-50)
            then (alert (if Py.Qltb current 1000 then "removed" else "drop"),
                  prev_liquidity)
            else if Qle_bool change_pct (-20)
            then (alert "drop", prev_liquidity)
            else if Py.Qgeb change_pct 100
            then (alert "surge", prev_liquidity)
            else (None, prev_liquidity)
      end
  end.

(** The loop of [check_all]: [fetch i] is the answer to the [i]-th GET. *)
Fixpoint check_loop (fetch : nat → option (list Pair)) (i : nat)
    (tokens : list string) (alerts : list LiquidityAlert)
    (prev_liquidity : gmap string Q) : list LiquidityAlert * gmap string Q :=
  match tokens with
  | [] => (alerts, prev_liquidity)
  | token :: tokens' =>
      let '(alert, prev_liquidity) := _check_token token (fetch i) prev_liquidity in
      let alerts :=
        match alert with
        | Some a => Py.append alerts a
        | None => alerts
        end in
      check_loop fetch (S i) tokens' alerts prev_liquidity
  end.

Definition check_all (fetch : nat → option (list Pair))
    (watch_tokens : list string) (prev_liquidity : gmap string Q)
    : list LiquidityAlert * gmap string Q :=
  check_loop fetch 0 watch_tokens [] prev_liquidity.

End LiquidityMonitor.

Module RangeMonitor.

Record RangeAlert := {
  asset : string;
  current_price : Q;
  range_low : Q;
  range_high : Q;
  breach : string;
  change_24h : Q;
}.

(** One entry of the CoinGecko answer. *)
Record PriceData := {
  usd : option Q;
  usd_24h_change : option Q;
}.

(** [round(q, 2)] *)
Definition round2 (q : Q) : Q :=
  Qred (inject_Z (Py.round_half_even (q * 100)) / 100).

Definition upper_ascii (c : ascii) : ascii :=
  let n := nat_of_ascii c in
  if (97 <=? n)%nat && (n <=? 122)%nat then ascii_of_nat (n - 32) else c.

(** [s.upper()[:3]], for the ASCII coin ids *)
Fixpoint upper3 (n : nat) (s : string) : string :=
  match n, s with
  | S n', String c s' => String (upper_ascii c) (upper3 n' s')
  | _, _ => ""
  end.

(** [_load_ranges], from the six environment values read as floats; the
    dict keeps insertion order. *)
Definition _load_ranges (sol_low sol_high btc_low btc_high eth_low eth_high : Q)
    : list (string * (Q * Q)) :=
  ((if Py.Qgtb sol_low 0 && Py.Qgtb sol_high 0
    then [("solana", (sol_low, sol_high))] else [])
   ++ (if Py.Qgtb btc_low 0 && Py.Qgtb btc_high 0
       then [("bitcoin", (btc_low, btc_high))] else [])
   ++ (if Py.Qgtb eth_low 0 && Py.Qgtb eth_high 0
       then [("ethereum", (eth_low, eth_high))] else []))%list.

(** The loop of [check_all] over [self.ranges.items()]. *)
Fixpoint check_loop (data : gmap string PriceData)
    (ranges : list (string * (Q * Q))) (alerts : list RangeAlert)
    : list RangeAlert :=
  match ranges with
  | [] => alerts
  | (coin_id, (low, high)) :: ranges' =>
      let price_data := data !! coin_id in
      let price := default 0%Q (price_data ≫= usd) in
      let change := default 0%Q (price_data ≫= usd_24h_change) in
      if Qle_bool price 0 then check_loop data ranges' alerts
      else
        let symbol := upper3 3 coin_id in
        let alert (breach : string) :=
          {| asset := symbol; current_price := price;
             range_low := low; range_high := high;
             breach := breach; change_24h := round2 change |} in
        if Py.Qltb price low
        then check_loop data ranges' (Py.append alerts (alert "below"))
        else if Py.Qgtb price high
        then check_loop data ranges' (Py.append alerts (alert "above"))
        else check_loop data ranges' alerts
  end.

(** [check_all]: [response] is [None] when the GET fails or does not
    answer 200, and otherwise the decoded answer. *)
Definition check_all (ranges : list (string * (Q * Q)))
    (response : option (gmap string PriceData)) : list RangeAlert :=
  match ranges with
  | [] => []
  | _ :: _ =>
      match response with
      | None => []
      | Some data => check_loop data ranges []
      end
  end.

End RangeMonitor.

(** ** [main.py]: step 3 of [run_screening_cycle] *)

Module Main.
Import Scanner.

Section WithEnv.
Variable log10 : Q → Q.
(** What the holder fetch returns for a token address. *)
Variable fetch_holders : string → option (list Holder).
(** The clock reading taken while the [i]-th candidate is enhanced. *)
Variable clock : nat → Z.

(** The body of the [for p in top] loop for the [i]-th candidate:
    [ms = await mania.enhance_scores(p)], [p.scores.update(ms)], and
    the blended [p.total_score]. On well-typed payloads
    [enhance_scores] raises nothing, so the [except] branch is not
    taken. *)
Definition enhance (i : nat) (p : SolanaProject) : SolanaProject :=
  let ms :=
    ManiaScorer.enhance_scores log10 (fetch_holders (token_address p))
      (clock i) (created_at p) (_twitter_raw (scores p)) in
  let mt := ManiaScorer.mania_total ms in
  {| token_address := token_address p;
     symbol := symbol p;
     name := name p;
     created_at := created_at p;
     liquidity_usd := liquidity_usd p;
     volume_24h_usd := volume_24h_usd p;
     total_score := Py.round1 (total_score p * 0.8 + mt * 0.2);
     scores := {| _twitter_raw := _twitter_raw (scores p);
                  mania := Some ms |} |}.

End WithEnv.

(** Steps 4 to 8 of [run_screening_cycle], and [run_realtime_monitor] *)

Import StateManager.

(** Step 6: the keys the dict comprehension keeps. *)
Definition is_mania_key (k : string) : bool :=
  Py.startswith k "mania" || Py.startswith k "smart" || Py.startswith k "holder"
  || Py.startswith k "social" || Py.startswith k "bot".

(** Step 6: [mania_scores], the entries of [p.scores] under the kept
    keys, as [calculate] reads them. *)
Definition mania_scores_of (scores : ScoreMap) : ExpectationCalculator.ManiaDict :=
  match mania scores with
  | Some ms =>
      {| ExpectationCalculator.mania_total :=
           if is_mania_key "mania_total"
           then Some (ManiaScorer.mania_total ms) else None;
         ExpectationCalculator._mania_raw :=
           if is_mania_key "_mania_raw"
           then Some {| ExpectationCalculator.bot :=
                          Some {| ExpectationCalculator.bot_risk :=
                                    Some (BotDetector.bot_risk
                                            (ManiaScorer.raw_bot
                                               (ManiaScorer._mania_raw ms))) |} |}
           else None |}
  | None =>
      {| ExpectationCalculator.mania_total := None;
         ExpectationCalculator._mania_raw := None |}
  end.

(** Step 6: [safety_results.get(p.token_address, {})] as [calculate]
    reads it. *)
Definition safety_of (safety_results : gmap string SafetyChecker.Safety)
    (p : SolanaProject) : option ExpectationCalculator.SafetyDict :=
  (λ s, {| ExpectationCalculator.risk_level := Some (SafetyChecker.risk_level s) |})
    <$> safety_results !! token_address p.

(** Step 6: the expectation value of one candidate. *)
Definition expectation_of (safety_results : gmap string SafetyChecker.Safety)
    (p : SolanaProject) : Py.result ExpectationCalculator.ExpectationValue :=
  ExpectationCalculator.calculate (total_score p)
    (safety_of safety_results p) (Some (mania_scores_of (scores p))) None None.

(** Steps 4 and 8, the store accesses of one cycle over [top] that runs
    to its end: the score changes, the de-duplication, and the state
    update. Steps 5 to 7 in between do not touch the store (a cycle that
    fails there is caught and updates nothing); the cycle returns the
    notified candidates, or nothing when none is new. *)
Definition screening_store_steps (top : list SolanaProject)
    : M (option (list SolanaProject) * gmap string Change) :=
  score_changes <- get_score_changes top ;;
  new_projects <- filter_new top ;;
  match new_projects with
  | [] => save_scan top ;;; ret (None, score_changes)
  | _ :: _ =>
      mark_notified new_projects ;;;
      save_scan top ;;;
      ret (Some new_projects, score_changes)
  end.

(** [run_realtime_monitor]: the liquidity alerts of one cycle, from a
    monitor constructed for the cycle. *)
Definition realtime_liquidity_alerts (watch_tokens : list string)
    (fetch : nat → option (list LiquidityMonitor.Pair))
    : list LiquidityMonitor.LiquidityAlert :=
  (LiquidityMonitor.check_all fetch watch_tokens ∅).1.


End Main.

(** * Vocabulary of the properties *)

Section SortTerms.
Import Py.
Context {A : Type} (key : A → Q).

(** [desc x y]: [x] may stand before [y] in a list sorted greatest
    first. *)
Definition desc (x y : A) : Prop := (key y <= key x)%Q.

End SortTerms.

Section HolderQualityTerms.
Import SmartMoneyAnalyzer.

(** The balances of the sampled (top 20) holders. *)
Definition sampled (holders : list Holder) : list Q :=
  amount_of <$> take 20 holders.


End HolderQualityTerms.

Section BotLikelihoodTerms.
Import BotDetector.

(** The profile with all four counts present. *)
Definition profile (followers following tweets likes : Z) : TwitterRaw :=
  {| followers := Some followers; following := Some following;
     tweets := Some tweets; likes := Some likes |}.

Definition score_of (followers following tweets likes : Z) : Z :=
  bot_score (analyze (profile followers following tweets likes)).

(** What one test adds to the running score. *)
Definition ratio_points (f g : Z) : Z := (step_ratio f g (0%Z, [])).1.
Definition tweets_points (f t : Z) : Z := (step_tweets f t (0%Z, [])).1.
Definition engagement_points (f t l : Z) : Z := (step_engagement f t l (0%Z, [])).1.
Definition round_points (f : Z) : Z := (step_round_number f (0%Z, [])).1.

(** [following or 1] *)
Definition or_one (g : Z) : Z := if (g =? 0)%Z then 1%Z else g.
End BotLikelihoodTerms.

Section SafetyTerms.
Import SafetyChecker.

(** The level the counts of danger-marked and warning-marked entries of
    [warnings] call for, for a report that was read. *)
Definition level_by_counts (s : Safety) : Prop :=
  let d := danger_count (warnings s) in
  let w := warn_count (warnings s) in
  ((2 ≤ d)%nat → risk_level s = "danger" ∧ is_safe s = false)
  ∧ (d = 1%nat ∨ (d = 0%nat ∧ (2 ≤ w)%nat) → risk_level s = "warning")
  ∧ ((d < 2)%nat → is_safe s = true).

(** The claim as the specification words it: "safe" in the remaining
    cases with a finding, "unknown" with no finding at all. *)
Definition level_as_specified (rugcheck : Report) : Prop :=
  let s := check rugcheck in
  let d := danger_count (warnings s) in
  let w := warn_count (warnings s) in
  level_by_counts s
  ∧ (d = 0%nat ∧ (w < 2)%nat ∧ warnings s ≠ [] → risk_level s = "safe")
  ∧ (warnings s = [] → risk_level s = "unknown").
End SafetyTerms.

Section ManiaBlendTerms.
Import Scanner.

(** The composite of the specification, on the sub-scores of a mania
    dict. *)
Definition composite (ms : ManiaScorer.Scores) : Q :=
  (inject_Z (ManiaScorer.smart_money ms) * 0.2
   + inject_Z (ManiaScorer.holder_quality ms) * 0.3
   + ManiaScorer.social_velocity ms * 0.3
   + Qmax 0 (50 - inject_Z (BotDetector.bot_score
                              (ManiaScorer.raw_bot (ManiaScorer._mania_raw ms))) * 0.3)
     * 0.2)%Q.

End ManiaBlendTerms.

Section StoreTerms.
Import Scanner StateManager.

(** The world after [k] more clock readings. *)
Definition advance (k : nat) (w : World) : World :=
  {| notified := notified w; scans := scans w; time := time w;
     tick := k + tick w |}.

(** The world with another notified map. *)
Definition with_notified (m : gmap string Entry) (w : World) : World :=
  {| notified := m; scans := scans w; time := time w; tick := tick w |}.

(** [now - last_notified < timedelta(hours=24)] *)
Definition fresh (now : Z) (e : Entry) : bool :=
  (now - last_notified e <? hours 24)%Z.

(** Whether [filter_new] keeps [p], when [d] tells which records are
    younger than 24 hours. *)
Definition keep (n : gmap string Entry) (d : Entry → bool)
    (p : SolanaProject) : bool :=
  match n !! token_address p with
  | Some e => negb (d e)
  | None => true
  end.

(** The record [mark_notified] writes for [p] at the reading [now]. *)
Definition entry_of (now : Z) (p : SolanaProject) : Entry :=
  {| e_symbol := symbol p; e_name := name p;
     e_score := Some (total_score p); last_notified := now |}.

(** The notified map after the writes of [mark_loop]. *)
Definition marked (now : Z) (ps : list SolanaProject)
    (m : gmap string Entry) : gmap string Entry :=
  foldl (λ m p, <[token_address p := entry_of now p]> m) m ps.

(** The notified map after the sweep at the reading [now]. *)
Definition swept (now : Z) (m : gmap string Entry) : gmap string Entry :=
  filter (λ kv, (now - days 7 < last_notified kv.2)%Z) m.
End StoreTerms.

Section SuppressionTerms.
Import Scanner StateManager.

(** [filter_new], then [mark_notified] on what it kept, then
    [filter_new] on the same candidates. *)
Definition suppression_round (ps : list SolanaProject) : M (list SolanaProject) :=
  bind (filter_new ps) (λ new,
  bind (mark_notified new) (λ _,
  filter_new ps)).

(** The clock readings a suppression round can take from [w] on: at
    most one per candidate in each [filter_new], two in
    [mark_notified]. *)
Definition round_readings (w : World) (ps : list SolanaProject) (i : nat) : Prop :=
  (tick w ≤ i < tick w + (2 * length ps + 2))%nat.

(** The round runs within the 24-hour window: a later reading is less
    than 24 hours after an earlier one, and no stored record of a
    candidate crosses the age of 24 hours between two readings. *)
Definition within_window (w : World) (ps : list SolanaProject) : Prop :=
  (∀ i j, round_readings w ps i → round_readings w ps j → (i ≤ j)%nat →
      (time w j - time w i < hours 24)%Z)
  ∧ (∀ p e i, p ∈ ps → notified w !! token_address p = Some e →
      round_readings w ps i →
      fresh (time w i) e = fresh (time w (tick w)) e).

(** The stored record of [p] is younger than 24 hours at the first
    reading from [w] on. *)
Definition suppressed (w : World) (p : SolanaProject) : bool :=
  match notified w !! token_address p with
  | Some e => fresh (time w (tick w)) e
  | None => false
  end.
End SuppressionTerms.

Section Scenarios.
Import Scanner StateManager.

(** A candidate with the given address and score. *)
Definition candidate (address : string) (score : Q) : SolanaProject :=
  {| token_address := address; symbol := "TKN"; name := "Token";
     created_at := 0; liquidity_usd := 0; volume_24h_usd := 0;
     total_score := score;
     scores := {| _twitter_raw := None; mania := None |} |}.

(** A store holding one record, written at [written] with score 40 for
    the address "So1", whose clock always reads [now]. *)
Definition one_record_world (written now : Z) : World :=
  {| notified :=
       {[ "So1" := {| e_symbol := "TKN"; e_name := "Token";
                      e_score := Some 40%Q; last_notified := written |} ]};
     scans := [];
     time := λ _, now;
     tick := 0 |}.

(** [timedelta(seconds=s)], in microseconds *)
Definition seconds (s : Z) : Z := (s * 1000000)%Z.
End Scenarios.

Section QueryTerms.
Import Scanner StateManager.

End QueryTerms.

Section HistoryTerms.
Import Scanner StateManager.

(** The record [save_scan] appends for [ps] at the reading [now]. *)
Definition scan_record (now : Z) (ps : list SolanaProject) : ScanRecord :=
  {| timestamp := now; count := length ps; top := snapshot <$> ps |}.

(** [save_scan] on each list of [batches] in turn. *)
Fixpoint save_scans (batches : list (list SolanaProject)) : M unit :=
  match batches with
  | [] => ret tt
  | ps :: batches' => bind (save_scan ps) (λ _, save_scans batches')
  end.

(** The records those calls append: the [i]-th carries the [i]-th clock
    reading from [tick] on. *)
Fixpoint scan_records (time : nat → Z) (tick : nat)
    (batches : list (list SolanaProject)) : list ScanRecord :=
  match batches with
  | [] => []
  | ps :: batches' =>
      scan_record (time tick) ps :: scan_records time (S tick) batches'
  end.
End HistoryTerms.

Section FusionTerms.
Import ExpectationCalculator.

(** The five locals of [calculate], each as a function of what it is
    computed from. *)
Definition base_heat_of (total_score : Q) : Z := (base_step total_score []).1.
Definition safety_modifier_of (risk_level : string) : Z :=
  (safety_step risk_level []).1.
Definition mania_modifier_of (mania_total : Q) (bot_risk : string) : Z :=
  (mania_step mania_total bot_risk []).1.
Definition trust_modifier_of (trust_score : option Q) : Z :=
  (trust_step trust_score []).1.
Definition market_modifier_of (sol_price_trend : option string) : Z :=
  (market_step sol_price_trend []).1.

(** The mania dict with the given total and raw payload. *)
Definition mania_dict (raw : option RawDict) (total : Q) : option ManiaDict :=
  Some {| mania_total := Some total; _mania_raw := raw |}.
End FusionTerms.

Section BotResultTerms.

(** The running pair keeps: no indicator exactly when the score is 0. *)
Definition tallied (acc : Z * list string) : Prop :=
  (0 ≤ acc.1)%Z ∧ (acc.2 = [] ↔ acc.1 = 0%Z).
End BotResultTerms.

Section PipelineTerms.
Import Scanner.

(** The mania dict of step 6 with the total only. *)
Definition total_only (scores : ScoreMap) : ExpectationCalculator.ManiaDict :=
  {| ExpectationCalculator.mania_total :=
       ManiaScorer.mania_total <$> mania scores;
     ExpectationCalculator._mania_raw := None |}.

(** The mania dict [calculate] would read from the whole [scores]. *)
Definition whole_dict (scores : ScoreMap) : ExpectationCalculator.ManiaDict :=
  {| ExpectationCalculator.mania_total :=
       ManiaScorer.mania_total <$> mania scores;
     ExpectationCalculator._mania_raw :=
       (λ ms, {| ExpectationCalculator.bot :=
                   Some {| ExpectationCalculator.bot_risk :=
                             Some (BotDetector.bot_risk
                                     (ManiaScorer.raw_bot
                                        (ManiaScorer._mania_raw ms))) |} |})
         <$> mania scores |}.
End PipelineTerms.

Section WarningTerms.
Import SafetyChecker.


End WarningTerms.

Section MonitorTerms.

(** [a] reports a price outside the range of one monitored coin. *)
Definition sound_range_alert (ranges : list (string * (Q * Q)))
    (data : gmap string RangeMonitor.PriceData) (a : RangeMonitor.RangeAlert)
    : Prop :=
  ∃ coin low high,
    (coin, (low, high)) ∈ ranges
    ∧ RangeMonitor.current_price a
      = default 0%Q (data !! coin ≫= RangeMonitor.usd)
    ∧ RangeMonitor.range_low a = low
    ∧ RangeMonitor.range_high a = high
    ∧ (0 < RangeMonitor.current_price a)%Q
    ∧ ((RangeMonitor.breach a = "below" ∧ (RangeMonitor.current_price a < low)%Q)
       ∨ (RangeMonitor.breach a = "above"
          ∧ (low <= RangeMonitor.current_price a)%Q
          ∧ (high < RangeMonitor.current_price a)%Q)).
End MonitorTerms.

Section CycleTerms.
Import Scanner StateManager.

(** The clock readings a cycle over [top] and the [filter_new] of a
    cycle over [top'] can take from [w] on: at most one per candidate in
    each [filter_new], two in [mark_notified], one in the [save_scan]
    between them. *)
Definition cycle_readings (w : World) (top top' : list SolanaProject) (i : nat)
    : Prop :=
  (tick w ≤ i < tick w + (length top + 3 + length top'))%nat.

(** Both cycles run within the 24-hour window: a later reading is less
    than 24 hours after an earlier one, and no stored record of a
    candidate crosses the age of 24 hours between two readings. *)
Definition cycles_within_window (w : World) (top top' : list SolanaProject)
    : Prop :=
  (∀ i j, cycle_readings w top top' i → cycle_readings w top top' j →
      (i ≤ j)%nat → (time w j - time w i < hours 24)%Z)
  ∧ (∀ p e i, p ∈ top → notified w !! token_address p = Some e →
      cycle_readings w top top' i →
      fresh (time w i) e = fresh (time w (tick w)) e).
End CycleTerms.

Section WalletTerms.
Import WalletTracker.


End WalletTerms.

(** * Properties *)

(** ** Rounding *)

Section Rounding.
Import Py.

Lemma round_half_even_bounds (a b : Z) (q : Q) :
  (inject_Z a <= q)%Q → (q <= inject_Z b)%Q →
  (a ≤ round_half_even q ≤ b)%Z.
Proof.
  intros Ha Hb.
  pose proof (Qfloor_le q) as Hfl.
  assert (Hlo : (a ≤ Qfloor q)%Z).
  { rewrite <- (Qfloor_Z a). by apply Qfloor_resp_le. }
  assert (Hhi : (Qfloor q ≤ b)%Z).
  { rewrite <- (Qfloor_Z b). by apply Qfloor_resp_le. }
  assert (Hstep : (0 < q - inject_Z (Qfloor q))%Q → (Qfloor q + 1 ≤ b)%Z).
  { intros Hpos.
    assert (Hlt : (inject_Z (Qfloor q) < inject_Z b)%Q).
    { eapply Qlt_le_trans; [|exact Hb].
      apply (Qplus_lt_l _ _ (- inject_Z (Qfloor q))).
      by rewrite Qplus_opp_r. }
    rewrite <- Zlt_Qlt in Hlt. lia. }
  unfold round_half_even.
  destruct (Qcompare_spec (q - inject_Z (Qfloor q)) (1 # 2)) as [He|Hl|Hg].
  - destruct (Z.even (Qfloor q)); [lia|].
    split; [lia|]. apply Hstep. by rewrite He.
  - lia.
  - split; [lia|]. apply Hstep. by eapply Qlt_trans; [|exact Hg].
Qed.

Lemma round1_bounds (q : Q) :
  (10 <= q)%Q → (q <= 100)%Q → (10 <= round1 q)%Q ∧ (round1 q <= 100)%Q.
Proof.
  intros Hlo Hhi.
  destruct (round_half_even_bounds 100 1000 (q * 10)) as [H1 H2].
  - change (10 * 10 <= q * 10)%Q. by apply Qmult_le_compat_r.
  - change (q * 10 <= 100 * 10)%Q. by apply Qmult_le_compat_r.
  - unfold round1. rewrite Qred_correct.
    set (z := round_half_even (q * 10)) in *.
    unfold Qle, Qdiv, Qmult, Qinv, inject_Z; simpl. lia.
Qed.

Lemma round_half_even_proper (q q' : Q) :
  (q == q')%Q → round_half_even q = round_half_even q'.
Proof.
  intros Heq. unfold round_half_even.
  rewrite (Qfloor_comp _ _ Heq).
  assert (Hc : (q - inject_Z (Qfloor q') ?= 1 # 2)%Q
               = (q' - inject_Z (Qfloor q') ?= 1 # 2)%Q).
  { apply Qcompare_comp; [by rewrite Heq | reflexivity]. }
  by rewrite Hc.
Qed.

Lemma round1_proper (q q' : Q) : (q == q')%Q → round1 q = round1 q'.
Proof.
  intros Heq. unfold round1.
  rewrite (round_half_even_proper (q * 10) (q' * 10)); [done|].
  by rewrite Heq.
Qed.
End Rounding.

(** ** Comparisons and the stable sort *)

Section Comparisons.
Import Py.

Lemma Qltb_lt (a b : Q) : Qltb a b = true ↔ (a < b)%Q.
Proof.
  unfold Qltb. rewrite negb_true_iff, <- not_true_iff_false, Qle_bool_iff.
  split; [apply Qnot_le_lt | apply Qlt_not_le].
Qed.

Lemma Qltb_ge (a b : Q) : Qltb a b = false ↔ (b <= a)%Q.
Proof. unfold Qltb. by rewrite negb_false_iff, Qle_bool_iff. Qed.

Lemma Qgtb_lt (a b : Q) : Qgtb a b = true ↔ (b < a)%Q.
Proof. apply (Qltb_lt b a). Qed.

Lemma Qgtb_le (a b : Q) : Qgtb a b = false ↔ (a <= b)%Q.
Proof. apply (Qltb_ge b a). Qed.
End Comparisons.

Section StableSortFacts.
Import Py.
Context {A : Type} (key : A → Q).







End StableSortFacts.

(** ** Expectation fusion *)

Section Expectation.
Import ExpectationCalculator.

Lemma final_heat_range (b s m t k : Z) :
  let h := final_heat_of b s m t k in
  h = 1%Z ∨ h = 2%Z ∨ h = 3%Z ∨ h = 4%Z ∨ h = 5%Z.
Proof. unfold final_heat_of. lia. Qed.

Lemma confidence_of_bounds (factors : list Z) :
  (10 <= confidence_of factors)%Q ∧ (confidence_of factors <= 100)%Q.
Proof.
  unfold confidence_of. split.
  - apply Q.le_max_l.
  - apply Q.max_lub; [done|]. apply Q.le_min_l.
Qed.
End Expectation.

(** C1. For every primary score, safety result, mania scores, optional
    trust score and optional market-trend label, [calculate] returns a value
    (it raises nothing) whose heat level is one of 1..5 and whose confidence
    lies in [10, 100]; an absent trust score and an absent trend each
    contribute the modifier 0 and no reasoning line. *)
Theorem calculate_total_heat_confidence_bounded
    (total_score : Q)
    (safety_result : option ExpectationCalculator.SafetyDict)
    (mania_scores : option ExpectationCalculator.ManiaDict)
    (trust_score : option Q) (sol_price_trend : option string) :
  (∃ ev,
      ExpectationCalculator.calculate total_score safety_result mania_scores
        trust_score sol_price_trend = Py.Ok ev
      ∧ (1 ≤ ExpectationCalculator.heat_level ev ≤ 5)%Z
      ∧ (10 <= ExpectationCalculator.confidence ev)%Q
      ∧ (ExpectationCalculator.confidence ev <= 100)%Q)
  ∧ (∀ reasoning,
      ExpectationCalculator.trust_step None reasoning = (0%Z, reasoning)
      ∧ ExpectationCalculator.market_step None reasoning = (0%Z, reasoning)).
Proof.
  split; [|done].
  unfold ExpectationCalculator.calculate.
  destruct (ExpectationCalculator.base_step _ _) as [base_heat r1].
  destruct (ExpectationCalculator.safety_step _ _) as [safety_modifier r2].
  destruct (ExpectationCalculator.mania_step _ _ _) as [mania_modifier r3].
  destruct (ExpectationCalculator.trust_step _ _) as [trust_modifier r4].
  destruct (ExpectationCalculator.market_step _ _) as [market_modifier r5].
  pose proof (final_heat_range base_heat safety_modifier mania_modifier
                trust_modifier market_modifier) as Hh.
  pose proof (confidence_of_bounds
                [base_heat; (3 + safety_modifier)%Z; (3 + mania_modifier)%Z;
                 (3 + trust_modifier)%Z]) as [Hlo Hhi].
  pose proof (round1_bounds _ Hlo Hhi) as [Hlo' Hhi'].
  cbv zeta in Hh.
  destruct Hh as [-> | [-> | [-> | [-> | ->]]]];
    (eexists; split; [reflexivity|]; simpl; split; [lia|done]).
Qed.

(** C9. The two worked scenarios: score 80, safety "safe", mania total 75,
    no trust score and no trend give base heat 5, safety modifier 0, mania
    modifier +1, final heat 5, position 10% labelled "強め（10%）"; score
    50, safety "danger", mania total 10 give base heat 3, safety modifier
    -2, mania modifier -1, final heat 1, position 0% labelled "見送り". *)
Theorem calculate_worked_scenarios :
  let safe := Some {| ExpectationCalculator.risk_level := Some "safe" |} in
  let danger := Some {| ExpectationCalculator.risk_level := Some "danger" |} in
  let mania (t : Q) :=
    Some {| ExpectationCalculator.mania_total := Some t;
            ExpectationCalculator._mania_raw := None |} in
  ((ExpectationCalculator.base_step 80 []).1 = 5%Z
   ∧ (ExpectationCalculator.safety_step "safe" []).1 = 0%Z
   ∧ (ExpectationCalculator.mania_step 75 "low" []).1 = 1%Z
   ∧ ∃ ev, ExpectationCalculator.calculate 80 safe (mania 75%Q) None None = Py.Ok ev
       ∧ ExpectationCalculator.heat_level ev = 5%Z
       ∧ (ExpectationCalculator.position_pct ev == 10)%Q
       ∧ ExpectationCalculator.position_label ev = "強め（10%）")
  ∧
  ((ExpectationCalculator.base_step 50 []).1 = 3%Z
   ∧ (ExpectationCalculator.safety_step "danger" []).1 = (-2)%Z
   ∧ (ExpectationCalculator.mania_step 10 "low" []).1 = (-1)%Z
   ∧ ∃ ev, ExpectationCalculator.calculate 50 danger (mania 10%Q) None None = Py.Ok ev
       ∧ ExpectationCalculator.heat_level ev = 1%Z
       ∧ (ExpectationCalculator.position_pct ev == 0)%Q
       ∧ ExpectationCalculator.position_label ev = "見送り").
Proof.
  cbv zeta. repeat split; try reflexivity.
  - eexists. split; [vm_compute; reflexivity|]. by repeat split.
  - eexists. split; [vm_compute; reflexivity|]. by repeat split.
Qed.

(** ** Holder quality *)

Section HolderQuality.
Import SmartMoneyAnalyzer.


End HolderQuality.




(** C8. When the holder fetch yields nothing (a missing list or an empty
    one), [SmartMoneyAnalyzer.analyze] returns the defaults: smart-money
    score 0, smart-money count 0, holder quality 0 and dev-wallet risk
    "unknown". *)
Theorem analyze_without_holders_defaults :
  SmartMoneyAnalyzer.analyze None
    = {| SmartMoneyAnalyzer.smart_money_score := 0;
         SmartMoneyAnalyzer.smart_money_count := 0;
         SmartMoneyAnalyzer.dev_wallet_risk := "unknown";
         SmartMoneyAnalyzer.holder_quality := 0 |}
  ∧ SmartMoneyAnalyzer.analyze (Some [])
    = {| SmartMoneyAnalyzer.smart_money_score := 0;
         SmartMoneyAnalyzer.smart_money_count := 0;
         SmartMoneyAnalyzer.dev_wallet_risk := "unknown";
         SmartMoneyAnalyzer.holder_quality := 0 |}.
Proof. split; reflexivity. Qed.

(** ** Bot likelihood *)

Section BotLikelihood.
Import BotDetector.

Lemma step_ratio_fst f g acc :
  (step_ratio f g acc).1 = (acc.1 + ratio_points f g)%Z
  ∧ (0 ≤ ratio_points f g ≤ 25)%Z.
Proof.
  unfold ratio_points, step_ratio.
  repeat case_match; simpl; lia.
Qed.

Lemma step_tweets_fst f t acc :
  (step_tweets f t acc).1 = (acc.1 + tweets_points f t)%Z
  ∧ (0 ≤ tweets_points f t ≤ 30)%Z.
Proof.
  unfold tweets_points, step_tweets.
  repeat case_match; simpl; lia.
Qed.

Lemma step_engagement_fst f t l acc :
  (step_engagement f t l acc).1 = (acc.1 + engagement_points f t l)%Z
  ∧ (0 ≤ engagement_points f t l ≤ 20)%Z.
Proof.
  unfold engagement_points, step_engagement.
  repeat case_match; simpl; lia.
Qed.

Lemma step_round_number_fst f acc :
  (step_round_number f acc).1 = (acc.1 + round_points f)%Z
  ∧ (0 ≤ round_points f ≤ 15)%Z.
Proof.
  unfold round_points, step_round_number.
  repeat case_match; simpl; lia.
Qed.

Lemma analyze_score (tw : TwitterRaw) :
  let f := default 0%Z (followers tw) in
  let g := or_one (default 1%Z (following tw)) in
  let t := default 0%Z (tweets tw) in
  let l := default 0%Z (likes tw) in
  bot_score (analyze tw)
  = if (f =? 0)%Z then 0%Z
    else Z.min 100 (ratio_points f g + tweets_points f t
                    + engagement_points f t l + round_points f).
Proof.
  intros f g t l. unfold analyze. fold f g t l. fold (or_one (default 1%Z (following tw))).
  fold g. destruct (f =? 0)%Z; [done|]. simpl.
  destruct (step_round_number_fst f
              (step_engagement f t l (step_tweets f t (step_ratio f g (0%Z, [])))))
    as [-> _].
  destruct (step_engagement_fst f t l (step_tweets f t (step_ratio f g (0%Z, []))))
    as [-> _].
  destruct (step_tweets_fst f t (step_ratio f g (0%Z, []))) as [-> _].
  fold (ratio_points f g). f_equal; lia.
Qed.

Lemma Qdiv_inject_le_den (f g g' : Z) :
  (0 ≤ f)%Z → (0 < g)%Z → (g ≤ g')%Z →
  (inject_Z f / inject_Z g' <= inject_Z f / inject_Z g)%Q.
Proof.
  intros Hf Hg Hle.
  destruct g as [|p|p]; [lia| |lia]. destruct g' as [|p'|p']; [lia| |lia].
  unfold Qle, Qdiv, Qmult, Qinv, inject_Z. simpl. nia.
Qed.

Lemma Qdiv_inject_le_num (l l' t : Z) :
  (0 < t)%Z → (l' ≤ l)%Z →
  (inject_Z l' / inject_Z t <= inject_Z l / inject_Z t)%Q.
Proof.
  intros Ht Hle.
  destruct t as [|p|p]; [lia| |lia].
  unfold Qle, Qdiv, Qmult, Qinv, inject_Z. simpl. nia.
Qed.

Lemma ratio_points_mono (f g g' : Z) :
  (0 < g)%Z → (g ≤ g')%Z → (ratio_points f g ≤ ratio_points f g')%Z.
Proof.
  intros Hg Hle. unfold ratio_points, step_ratio.
  destruct (1000 <? f)%Z eqn:Hf.
  2:{ rewrite !andb_false_r. repeat case_match; simpl; lia. }
  apply Z.ltb_lt in Hf. rewrite !andb_true_r.
  pose proof (Qdiv_inject_le_den f g g' ltac:(lia) Hg Hle) as Hr.
  set (r := (inject_Z f / inject_Z g)%Q) in *.
  set (r' := (inject_Z f / inject_Z g')%Q) in *.
  destruct (Py.Qltb r 0.5) eqn:H1.
  - apply Qltb_lt in H1.
    assert (H2 : Py.Qltb r' 0.5 = true) by (apply Qltb_lt; lra).
    assert (H3 : Py.Qgtb r' 100 = false) by (apply Qgtb_le; lra).
    rewrite H2, H3. simpl. repeat case_match; simpl; lia.
  - repeat case_match; simpl; lia.
Qed.

Lemma engagement_points_mono (f t l l' : Z) :
  (l' ≤ l)%Z → (engagement_points f t l ≤ engagement_points f t l')%Z.
Proof.
  intros Hle. unfold engagement_points, step_engagement.
  destruct (0 <? t)%Z eqn:Ht; [|done]. apply Z.ltb_lt in Ht.
  pose proof (Qdiv_inject_le_num l l' t Ht Hle) as Hr.
  destruct (1000 <? f)%Z; simpl; [|done].
  destruct (Py.Qltb (inject_Z l / inject_Z t) 1) eqn:H1.
  - apply Qltb_lt in H1.
    assert (H2 : Py.Qltb (inject_Z l' / inject_Z t) 1 = true)
      by (apply Qltb_lt; lra).
    by rewrite H2.
  - case_match; simpl; lia.
Qed.
End BotLikelihood.

(** C5 (as stated, refuted). The score is not monotone in the follower
    count nor in the tweet count: one more follower than the round 1000
    drops the score from 15 to 0, and at 2001 followers with 3 likes,
    falling from 5 tweets to 2 drops it from 20 to 0. *)
Lemma bot_score_not_monotone_in_followers_or_tweets :
  (score_of 1000 500 100 1000 = 15%Z ∧ score_of 1001 500 100 1000 = 0%Z
   ∧ ¬ (score_of 1000 500 100 1000 ≤ score_of 1001 500 100 1000)%Z)
  ∧ (score_of 2001 100 5 3 = 20%Z ∧ score_of 2001 100 2 3 = 0%Z
     ∧ ¬ (score_of 2001 100 5 3 ≤ score_of 2001 100 2 3)%Z).
Proof.
  assert (H1 : score_of 1000 500 100 1000 = 15%Z) by (vm_compute; reflexivity).
  assert (H2 : score_of 1001 500 100 1000 = 0%Z) by (vm_compute; reflexivity).
  assert (H3 : score_of 2001 100 5 3 = 20%Z) by (vm_compute; reflexivity).
  assert (H4 : score_of 2001 100 2 3 = 0%Z) by (vm_compute; reflexivity).
  rewrite H1, H2, H3, H4. repeat split; lia.
Qed.

(** C5 (amended). For every social profile the bot score lies in [0, 100],
    and, the other counts held fixed, it does not decrease when the
    (non-negative) following count rises or when the like count falls. *)
Theorem bot_score_bounded_monotone_in_following_and_likes :
  (∀ tw : TwitterRaw,
      (0 ≤ BotDetector.bot_score (BotDetector.analyze tw) ≤ 100)%Z)
  ∧ (∀ followers following following' tweets likes : Z,
      (0 ≤ following)%Z → (following ≤ following')%Z →
      (score_of followers following tweets likes
       ≤ score_of followers following' tweets likes)%Z)
  ∧ (∀ followers following tweets likes likes' : Z,
      (likes' ≤ likes)%Z →
      (score_of followers following tweets likes
       ≤ score_of followers following tweets likes')%Z).
Proof.
  split; [|split].
  - intros tw. rewrite analyze_score. cbv zeta.
    destruct (_ =? 0)%Z; [lia|].
    pose proof (step_ratio_fst (default 0%Z (followers tw))
                  (or_one (default 1%Z (following tw))) (0%Z, [])) as [_ ?].
    pose proof (step_tweets_fst (default 0%Z (followers tw))
                  (default 0%Z (tweets tw)) (0%Z, [])) as [_ ?].
    pose proof (step_engagement_fst (default 0%Z (followers tw))
                  (default 0%Z (tweets tw)) (default 0%Z (likes tw)) (0%Z, []))
      as [_ ?].
    pose proof (step_round_number_fst (default 0%Z (followers tw)) (0%Z, []))
      as [_ ?].
    lia.
  - intros f g g' t l Hg Hle. unfold score_of. rewrite !analyze_score. simpl.
    destruct (f =? 0)%Z; [lia|].
    assert (ratio_points f (or_one g) ≤ ratio_points f (or_one g'))%Z.
    { apply ratio_points_mono; unfold or_one; repeat case_match; lia. }
    lia.
  - intros f g t l l' Hle. unfold score_of. rewrite !analyze_score. simpl.
    destruct (f =? 0)%Z; [lia|].
    pose proof (engagement_points_mono f t l l' Hle). lia.
Qed.

(** ** Safety classification *)

Section Safety.
Import SafetyChecker.

Lemma check_truthy (rugcheck : Report) :
  truthy rugcheck = true →
  let s := check rugcheck in
  let d := danger_count (warnings s) in
  let w := warn_count (warnings s) in
  is_safe s = negb (2 <=? d)%nat
  ∧ risk_level s =
      (if (2 <=? d)%nat then "danger"
       else if (1 <=? d)%nat then "warning"
       else if (2 <=? w)%nat then "warning"
       else "safe").
Proof. intros Ht. unfold check. rewrite Ht. by simpl. Qed.
End Safety.

(** C4 (as stated, refuted). A report that was fetched and lists no risk
    and no holder has no finding at all, and its level is "safe", not
    "unknown". *)
Lemma report_without_findings_is_safe :
  let report :=
    {| SafetyChecker.score := Some 0%Q; SafetyChecker.risks := Some [];
       SafetyChecker.topHolders := None; SafetyChecker.other_keys := false |} in
  SafetyChecker.warnings (SafetyChecker.check report) = []
  ∧ SafetyChecker.risk_level (SafetyChecker.check report) = "safe"
  ∧ ¬ level_as_specified report.
Proof.
  cbv zeta. split; [done|]. split; [done|].
  intros (_ & _ & Hunknown).
  specialize (Hunknown eq_refl). discriminate Hunknown.
Qed.

(** C4 (amended). For every raw risk report that is not empty, the final
    risk level is "danger" when the accumulated warnings hold at least 2
    danger-level entries (and [is_safe] is then false), "warning" when
    they hold exactly 1 danger-level entry, or no danger-level and at
    least 2 warning-level entries, and "safe" otherwise, also when there
    is no finding at all; the level is "unknown" exactly when the report
    is empty, and then no warning is recorded and [is_safe] stays true. *)
Theorem risk_level_by_warning_counts (rugcheck : SafetyChecker.Report) :
  let s := SafetyChecker.check rugcheck in
  let d := SafetyChecker.danger_count (SafetyChecker.warnings s) in
  let w := SafetyChecker.warn_count (SafetyChecker.warnings s) in
  (SafetyChecker.truthy rugcheck = true →
     level_by_counts s
     ∧ (d = 0%nat ∧ (w < 2)%nat → SafetyChecker.risk_level s = "safe"))
  ∧ (SafetyChecker.truthy rugcheck = false →
       SafetyChecker.warnings s = [] ∧ SafetyChecker.is_safe s = true)
  ∧ (SafetyChecker.risk_level s = "unknown"
     ↔ SafetyChecker.truthy rugcheck = false).
Proof.
  cbv zeta. destruct (SafetyChecker.truthy rugcheck) eqn:Ht.
  - destruct (check_truthy rugcheck Ht) as [Hsafe Hlevel].
    cbv zeta in Hsafe, Hlevel.
    set (s := SafetyChecker.check rugcheck) in *.
    set (d := SafetyChecker.danger_count (SafetyChecker.warnings s)) in *.
    set (w := SafetyChecker.warn_count (SafetyChecker.warnings s)) in *.
    split; [intros _ | split; [done|]].
    + unfold level_by_counts. fold d w. rewrite Hsafe, Hlevel.
      destruct (Nat.leb_spec 2 d); destruct (Nat.leb_spec 1 d);
        destruct (Nat.leb_spec 2 w); simpl; repeat split; intros; try done; lia.
    + rewrite Hlevel. split; [|done].
      by repeat case_match.
  - unfold SafetyChecker.check. rewrite Ht. simpl.
    split; [done|]. by split.
Qed.

(** ** Mania composite, blend and re-sort *)

Section ManiaBlend.
Import Scanner.

Lemma enhance_scores_total (log10 : Q → Q) holders now created twitter :
  let ms := ManiaScorer.enhance_scores log10 holders now created twitter in
  ManiaScorer.mania_total ms = Py.round1 (composite ms).
Proof.
  cbv zeta. unfold ManiaScorer.enhance_scores, composite. simpl.
  apply round1_proper.
  set (b := inject_Z (BotDetector.bot_score _)).
  assert (Hb : (50 + - b * 0.3 == 50 - b * 0.3)%Q) by ring.
  by rewrite Hb.
Qed.
End ManiaBlend.



(** ** De-duplication store *)

Section Store.
Import Scanner StateManager.

Lemma advance_0 w : advance 0 w = w.
Proof. by destruct w. Qed.

Lemma advance_advance j k w : advance j (advance k w) = advance (j + k) w.
Proof. unfold advance. simpl. f_equal. lia. Qed.

Lemma datetime_now_spec w : datetime_now w = (time w (tick w), advance 1 w).
Proof. done. Qed.

(** [filter_loop] only reads the clock. *)
Lemma filter_loop_frame n ps : ∀ new w,
  ∃ k, (k ≤ length ps)%nat ∧ (filter_loop n ps new w).2 = advance k w.
Proof.
  induction ps as [|p ps IH]; intros new w; simpl.
  - exists 0%nat. by rewrite advance_0.
  - destruct (n !! token_address p) as [e|].
    + unfold bind. rewrite datetime_now_spec.
      destruct (_ <? _)%Z.
      * destruct (IH new (advance 1 w)) as (k & Hk & ->).
        exists (k + 1)%nat. rewrite advance_advance. split; [lia|done].
      * destruct (IH (Py.append new p) (advance 1 w)) as (k & Hk & ->).
        exists (k + 1)%nat. rewrite advance_advance. split; [lia|done].
    + destruct (IH (Py.append new p) w) as (k & Hk & ->).
      exists k. split; [lia|done].
Qed.

Lemma filter_loop_result n d ps : ∀ new w,
  (∀ p e i, p ∈ ps → n !! token_address p = Some e →
      (tick w ≤ i < tick w + length ps)%nat → fresh (time w i) e = d e) →
  (filter_loop n ps new w).1 = (new ++ List.filter (keep n d) ps)%list.
Proof.
  induction ps as [|p ps IH]; intros new w Hd; simpl.
  - by rewrite app_nil_r.
  - unfold keep at 1.
    destruct (n !! token_address p) as [e|] eqn:He.
    + unfold bind. rewrite datetime_now_spec.
      pose proof (Hd p e (tick w) ltac:(by left) He ltac:(simpl; lia)) as Hf.
      unfold fresh in Hf. rewrite Hf.
      assert (Hd' : ∀ p' e' i, p' ∈ ps → n !! token_address p' = Some e' →
                (tick (advance 1 w) ≤ i < tick (advance 1 w) + length ps)%nat →
                fresh (time (advance 1 w) i) e' = d e').
      { intros p' e' i Hin He' Hi. simpl in *.
        apply (Hd p' e' i); [by right|done|lia]. }
      destruct (d e); simpl.
      * by apply IH.
      * rewrite IH by done. unfold Py.append. by rewrite <- app_assoc.
    + simpl. rewrite IH.
      * unfold Py.append. by rewrite <- app_assoc.
      * intros p' e' i Hin He' Hi. apply (Hd p' e' i); [by right|done|simpl; lia].
Qed.

Lemma mark_loop_spec now ps : ∀ w,
  mark_loop now ps w = (tt, with_notified (marked now ps (notified w)) w).
Proof.
  induction ps as [|p ps IH]; intros w; simpl.
  - by destruct w.
  - unfold bind, get_notified, set_notified. by rewrite IH.
Qed.

Lemma marked_lookup_notin now ps : ∀ m a,
  a ∉ token_address <$> ps → marked now ps m !! a = m !! a.
Proof.
  induction ps as [|p ps IH]; intros m a Hnot; simpl; [done|].
  rewrite fmap_cons, not_elem_of_cons in Hnot. destruct Hnot as [Hne Hnot].
  rewrite IH by done. by rewrite lookup_insert_ne.
Qed.

Lemma marked_lookup_in now ps : ∀ m a,
  a ∈ token_address <$> ps →
  ∃ p, p ∈ ps ∧ token_address p = a ∧ marked now ps m !! a = Some (entry_of now p).
Proof.
  induction ps as [|p ps IH]; intros m a Hin; simpl.
  - by apply elem_of_nil in Hin.
  - destruct (decide (a ∈ token_address <$> ps)) as [Hlater|Hlater].
    + destruct (IH (<[token_address p := entry_of now p]> m) a Hlater)
        as (p' & Hp' & Ha & Hl).
      exists p'. split; [by right|done].
    + rewrite fmap_cons in Hin. apply elem_of_cons in Hin as [->|Hin]; [|done].
      exists p. split; [by left|]. split; [done|].
      rewrite marked_lookup_notin by done. by rewrite lookup_insert_eq.
Qed.

Lemma swept_lookup now m a e :
  swept now m !! a = Some e ↔ m !! a = Some e ∧ (now - days 7 < last_notified e)%Z.
Proof. unfold swept. by rewrite map_lookup_filter_Some. Qed.

Lemma swept_lookup_None now m a e :
  m !! a = Some e → (last_notified e ≤ now - days 7)%Z → swept now m !! a = None.
Proof.
  intros Hm Hold. apply eq_None_not_Some. intros [e' He'].
  apply swept_lookup in He' as [Hm' Hyoung]. simplify_eq. lia.
Qed.

Lemma mark_notified_spec ps w :
  mark_notified ps w
  = (tt, advance 2 (with_notified
                      (swept (time w (S (tick w)))
                         (marked (time w (tick w)) ps (notified w))) w)).
Proof.
  unfold mark_notified, bind. rewrite datetime_now_spec, mark_loop_spec.
  unfold _cleanup_old_entries, bind. by rewrite datetime_now_spec.
Qed.
End Store.

Section Suppression.
Import Scanner StateManager.

Lemma keep_suppressed w p :
  keep (notified w) (fresh (time w (tick w))) p = negb (suppressed w p).
Proof. unfold keep, suppressed. by destruct (_ !! _). Qed.

Lemma filter_all_false {A} (f : A → bool) (l : list A) :
  (∀ x, x ∈ l → f x = false) → List.filter f l = [].
Proof.
  induction l as [|x l IH]; intros H; simpl; [done|].
  rewrite (H x) by (by left). apply IH. intros y Hy. apply H. by right.
Qed.

Lemma filter_new_result w ps :
  within_window w ps →
  (filter_new ps w).1 = List.filter (λ p, negb (suppressed w p)) ps.
Proof.
  intros [_ Hstable]. unfold filter_new, bind, get_notified.
  rewrite (filter_loop_result (notified w) (fresh (time w (tick w)))).
  - simpl. apply filter_ext. intros p. apply keep_suppressed.
  - intros p e i Hp He Hi. apply (Hstable p e i); [done|done|].
    unfold round_readings. lia.
Qed.

Lemma suppression_round_empty w ps :
  within_window w ps → (suppression_round ps w).1 = [].
Proof.
  intros Hwin. pose proof Hwin as [Hclose Hstable].
  pose proof (filter_new_result w ps Hwin) as Hnew.
  unfold filter_new, bind, get_notified in Hnew.
  unfold suppression_round, bind.
  unfold filter_new at 1. unfold bind, get_notified.
  destruct (filter_loop_frame (notified w) ps [] w) as (k & Hk & Hw1).
  destruct (filter_loop (notified w) ps [] w) as [new w1].
  simpl in Hnew, Hw1. subst w1.
  rewrite mark_notified_spec. simpl.
  set (tm := time w (k + tick w)).
  set (tc := time w (S (k + tick w))).
  set (n2 := swept tc (marked tm new (notified w))).
  unfold filter_new, bind, get_notified. simpl. fold n2.
  (* every candidate has a record, fresh at every later reading *)
  assert (Hrec : ∀ p, p ∈ ps → ∃ e, marked tm new (notified w) !! token_address p = Some e
            ∧ ∀ i, (k + tick w ≤ i)%nat → round_readings w ps i →
                   fresh (time w i) e = true).
  { intros p Hp.
    destruct (decide (token_address p ∈ token_address <$> new)) as [Hin|Hnin].
    - destruct (marked_lookup_in tm new (notified w) _ Hin) as (p' & _ & _ & Hl).
      exists (entry_of tm p'). split; [done|].
      intros i Hi Hr. unfold fresh. simpl. apply Z.ltb_lt.
      apply Hclose; [unfold round_readings in *; lia|done|done].
    - rewrite marked_lookup_notin by done.
      assert (Hsup : suppressed w p = true).
      { destruct (suppressed w p) eqn:Hs; [done|]. exfalso. apply Hnin.
        apply list_elem_of_fmap. exists p. split; [done|].
        rewrite Hnew. apply list_elem_of_In, filter_In.
        split; [by apply list_elem_of_In|by rewrite Hs]. }
      unfold suppressed in Hsup.
      destruct (notified w !! token_address p) as [e|] eqn:He; [|done].
      exists e. split; [done|].
      intros i _ Hr. by rewrite (Hstable p e i Hp He Hr). }
  assert (Hkept : ∀ p, p ∈ ps → ∃ e, n2 !! token_address p = Some e
            ∧ ∀ i, (k + tick w ≤ i)%nat → round_readings w ps i →
                   fresh (time w i) e = true).
  { intros p Hp. destruct (Hrec p Hp) as (e & He & Hfresh).
    exists e. split; [|done].
    apply swept_lookup. split; [done|].
    pose proof (Hfresh (S (k + tick w)) ltac:(lia)
                  ltac:(unfold round_readings; lia)) as Hc.
    unfold fresh in Hc. apply Z.ltb_lt in Hc. fold tc in Hc.
    unfold hours, days in *. lia. }
  rewrite (filter_loop_result n2 (λ _, true)).
  - simpl. apply filter_all_false. intros p Hp.
    destruct (Hkept p Hp) as (e & He & _). unfold keep. by rewrite He.
  - intros p e i Hp He Hi. simpl in *.
    destruct (Hkept p Hp) as (e' & He' & Hfresh). simplify_eq.
    apply Hfresh; [lia|]. unfold round_readings. lia.
Qed.
End Suppression.

(** C2. For every candidate list and store, when the round runs within
    the 24-hour window, [filter_new] followed by [mark_notified] on the
    surviving candidates and [filter_new] again on the same candidates
    returns the empty list; and [filter_new] returns the candidates in
    their input order less exactly those whose stored record is younger
    than 24 hours. *)
Theorem filter_mark_filter_empty_and_filter_exact
    (w : StateManager.World) (ps : list Scanner.SolanaProject) :
  within_window w ps →
  (suppression_round ps w).1 = []
  ∧ (StateManager.filter_new ps w).1
    = List.filter (λ p, negb (suppressed w p)) ps.
Proof.
  intros Hwin. split.
  - by apply suppression_round_empty.
  - by apply filter_new_result.
Qed.

(** One hour after "So1" was notified, a round over "So1" and the new
    "So2". *)
Lemma filter_mark_filter_empty_and_filter_exact_witness :
  let w := one_record_world 0 (StateManager.hours 1) in
  let ps := [candidate "So1" 55; candidate "So2" 70] in
  within_window w ps
  ∧ (suppression_round ps w).1 = []
  ∧ (StateManager.filter_new ps w).1
    = List.filter (λ p, negb (suppressed w p)) ps.
Proof.
  intros w ps.
  assert (Hwin : within_window w ps).
  { split.
    - intros i j _ _ _. reflexivity.
    - intros p e i _ _ _. reflexivity. }
  exact (conj Hwin (filter_mark_filter_empty_and_filter_exact w ps Hwin)).
Defined.

Section Retention.
Import Scanner StateManager.

Lemma mark_notified_notified ps w :
  notified (mark_notified ps w).2
  = swept (time w (S (tick w))) (marked (time w (tick w)) ps (notified w)).
Proof. by rewrite mark_notified_spec. Qed.

(** After [mark_notified] a record is stored iff it was there after the
    writes and is less than 7 days old at the sweep's clock reading. *)
Lemma mark_notified_lookup ps w a e :
  notified (mark_notified ps w).2 !! a = Some e
  ↔ marked (time w (tick w)) ps (notified w) !! a = Some e
    ∧ (time w (S (tick w)) - last_notified e < days 7)%Z.
Proof.
  rewrite mark_notified_notified, swept_lookup.
  split; intros [? ?]; (split; [done|lia]).
Qed.
End Retention.

(** C6. Every call of [mark_notified] runs the retention sweep: after the
    writes, a record that is not rewritten and is exactly 7 days and 1
    second old at the sweep is purged, one exactly 6 days 23 hours old
    survives; a rewritten record carries the time of this write, so its
    age runs from its most recent update; and the notified map holds at
    most one record per token address. *)
Theorem mark_notified_runs_retention_sweep
    (w : StateManager.World) (ps : list Scanner.SolanaProject)
    (a : string) (e : StateManager.Entry) :
  StateManager.notified w !! a = Some e →
  a ∉ Scanner.token_address <$> ps →
  let write_time := StateManager.time w (StateManager.tick w) in
  let sweep_time := StateManager.time w (S (StateManager.tick w)) in
  let after := StateManager.notified (StateManager.mark_notified ps w).2 in
  ((sweep_time - StateManager.last_notified e
    = StateManager.days 7 + seconds 1)%Z → after !! a = None)
  ∧ ((sweep_time - StateManager.last_notified e
      = StateManager.days 6 + StateManager.hours 23)%Z → after !! a = Some e)
  ∧ (∀ p, p ∈ ps → (sweep_time - write_time < StateManager.days 7)%Z →
       ∃ e', after !! Scanner.token_address p = Some e'
             ∧ StateManager.last_notified e' = write_time)
  ∧ NoDup (map_to_list after).*1.
Proof.
  intros He Hnot write_time sweep_time after.
  assert (Hm : marked write_time ps (StateManager.notified w) !! a = Some e).
  { by rewrite marked_lookup_notin. }
  split; [|split; [|split]].
  - intros Hage. unfold after. rewrite mark_notified_notified.
    apply (swept_lookup_None _ _ a e Hm).
    fold sweep_time. unfold StateManager.days, seconds in *. lia.
  - intros Hage. apply mark_notified_lookup. split; [done|].
    fold sweep_time. unfold StateManager.days, StateManager.hours in *. lia.
  - intros p Hp Hrecent.
    assert (Hin : Scanner.token_address p ∈ Scanner.token_address <$> ps).
    { apply list_elem_of_fmap. by exists p. }
    destruct (marked_lookup_in write_time ps (StateManager.notified w) _ Hin)
      as (p' & _ & _ & Hl).
    exists (entry_of write_time p'). split; [|done].
    apply mark_notified_lookup. by split.
  - apply NoDup_fst_map_to_list.
Qed.

(** The record of "So1" is 7 days and 1 second old when "So2" is marked:
    it is purged. *)
Lemma mark_notified_runs_retention_sweep_witness :
  let w := one_record_world 0 (StateManager.days 7 + seconds 1) in
  let ps := [candidate "So2" 70] in
  let e := {| StateManager.e_symbol := "TKN"; StateManager.e_name := "Token";
              StateManager.e_score := Some 40%Q;
              StateManager.last_notified := 0 |} in
  StateManager.notified w !! "So1" = Some e
  ∧ ("So1" ∉ Scanner.token_address <$> ps)
  ∧ StateManager.notified (StateManager.mark_notified ps w).2 !! "So1" = None.
Proof.
  intros w ps e.
  assert (He : StateManager.notified w !! "So1" = Some e) by reflexivity.
  assert (Hnot : "So1" ∉ Scanner.token_address <$> ps).
  { intros Hin. apply list_elem_of_singleton in Hin. discriminate Hin. }
  split; [exact He|]. split; [exact Hnot|].
  exact (proj1 (mark_notified_runs_retention_sweep w ps "So1" e He Hnot) eq_refl).
Defined.

Section Queries.
Import Scanner StateManager.



End Queries.


(** ** Scan history *)

Section History.
Import Scanner StateManager.

Lemma save_scan_spec ps w :
  save_scan ps w
  = (tt, {| notified := notified w;
            scans := drop (S (length (scans w)) - 100)
                       (scans w ++ [scan_record (time w (tick w)) ps]);
            time := time w; tick := S (tick w) |}).
Proof.
  unfold save_scan, bind, get_scans, set_scans, ret. rewrite datetime_now_spec.
  cbn [notified scans time tick advance fst snd].
  fold (scan_record (time w (tick w)) ps).
  set (r := scan_record (time w (tick w)) ps).
  unfold Py.append, Py.slice_last. rewrite length_app.
  change (length [r]) with 1%nat.
  destruct (Nat.ltb_spec 100 (length (scans w) + 1)) as [Hgt|Hle].
  - do 3 f_equal. lia.
  - replace (S (length (scans w)) - 100)%nat with 0%nat by lia. done.
Qed.

Lemma save_scans_spec batches : ∀ w,
  (length (scans w) ≤ 100)%nat →
  save_scans batches w
  = (tt, {| notified := notified w;
            scans := drop (length (scans w) + length batches - 100)
                       (scans w ++ scan_records (time w) (tick w) batches);
            time := time w; tick := length batches + tick w |}).
Proof.
  induction batches as [|ps batches IH]; intros w Hlen.
  - simpl. unfold ret. rewrite app_nil_r.
    replace (length (scans w) + 0 - 100)%nat with 0%nat by lia.
    by destruct w.
  - simpl save_scans. unfold bind. rewrite save_scan_spec.
    set (r := scan_record (time w (tick w)) ps).
    rewrite IH; cbn [notified scans time tick].
    2:{ rewrite length_drop, length_app. cbn [length]. lia. }
    cbn [length scan_records]. fold r.
    f_equal. f_equal; [|lia].
    rewrite length_drop, length_app. cbn [length].
    rewrite <- (drop_app_le (scans w ++ [r]) _)
      by (rewrite length_app; simpl; lia).
    rewrite drop_drop, <- app_assoc. simpl.
    f_equal. lia.
Qed.

Lemma save_scan_appends_helper (w : World) (ps : list SolanaProject) :
  let record := scan_record (time w (tick w)) ps in
  let after := scans (save_scan ps w).2 in
  after = drop (S (length (scans w)) - 100) (scans w ++ [record])
  ∧ length after = Nat.min 100 (S (length (scans w)))
  ∧ last after = Some record.
Proof.
  intros record after. unfold after. rewrite save_scan_spec.
  cbn [snd scans]. fold record.
  split; [done|]. split.
  - rewrite length_drop, length_app. cbn [length]. lia.
  - set (k := (S (length (scans w)) - 100)%nat).
    assert (Hk : (k ≤ length (scans w))%nat) by (unfold k; lia).
    rewrite drop_app_le by done. by rewrite last_snoc.
Qed.
End History.

(** X1: one call of [save_scan] appends the record of the candidates,
    stamped with the clock reading, as the newest entry and keeps the 100
    newest entries of the history. *)
Theorem save_scan_appends_newest_and_caps
    (w : StateManager.World) (ps : list Scanner.SolanaProject) :
  let record := scan_record (StateManager.time w (StateManager.tick w)) ps in
  let after := StateManager.scans (StateManager.save_scan ps w).2 in
  after = drop (S (length (StateManager.scans w)) - 100)
               (StateManager.scans w ++ [record])
  ∧ length after = Nat.min 100 (S (length (StateManager.scans w)))
  ∧ last after = Some record.
Proof. apply save_scan_appends_helper. Qed.

(** X2: on a history of at most 100 entries, any sequence of [save_scan]
    calls leaves the newest 100 of the old entries followed by the new
    records, oldest dropped first, in insertion order; the history never
    exceeds 100 entries. *)
Theorem save_scans_keep_newest_hundred
    (w : StateManager.World) (batches : list (list Scanner.SolanaProject)) :
  (length (StateManager.scans w) ≤ 100)%nat →
  let after := StateManager.scans (save_scans batches w).2 in
  after = drop (length (StateManager.scans w) + length batches - 100)
               (StateManager.scans w
                ++ scan_records (StateManager.time w) (StateManager.tick w) batches)
  ∧ length after = Nat.min 100 (length (StateManager.scans w) + length batches).
Proof.
  intros Hlen after. unfold after. rewrite save_scans_spec by done.
  cbn [snd StateManager.scans]. split; [done|].
  rewrite length_drop, length_app.
  assert (Hr : ∀ t k, length (scan_records t k batches) = length batches).
  { induction batches as [|? ? IH]; intros; simpl; [done|]. by rewrite IH. }
  rewrite Hr. lia.
Qed.

(** From an empty history, 101 saves leave exactly 100 entries, the first
    record evicted. *)
Lemma save_scans_keep_newest_hundred_witness :
  let w := one_record_world 0 0 in
  let batches := replicate 101 [candidate "So1" 55] in
  (length (StateManager.scans w) ≤ 100)%nat
  ∧ length (StateManager.scans (save_scans batches w).2) = 100%nat.
Proof.
  intros w batches.
  assert (Hlen : (length (StateManager.scans w) ≤ 100)%nat) by (simpl; lia).
  split; [exact Hlen|].
  exact (eq_trans
           (proj2 (save_scans_keep_newest_hundred w batches Hlen)) eq_refl).
Defined.

(** ** Score changes and notification records *)

Section Records.
Import Scanner StateManager.

Lemma changes_loop_dom n ps : ∀ c,
  dom (changes_loop n ps c) = dom c ∪ list_to_set (token_address <$> ps).
Proof.
  induction ps as [|p ps IH]; intros c; simpl.
  - by rewrite (right_id_L ∅ (∪)).
  - rewrite IH, dom_insert_L.
    rewrite (comm_L (∪) {[token_address p]} (dom c)).
    by rewrite <- (assoc_L (∪)).
Qed.


Lemma filter_loop_sublist n ps : ∀ new w,
  ∃ r, (filter_loop n ps new w).1 = (new ++ r)%list
       ∧ r `sublist_of` ps
       ∧ ∀ p, p ∈ ps → n !! token_address p = None → p ∈ r.
Proof.
  induction ps as [|p ps IH]; intros new w; simpl.
  - exists []. rewrite app_nil_r. split; [done|]. split; [done|].
    intros p Hp. by apply elem_of_nil in Hp.
  - destruct (n !! token_address p) as [e|] eqn:He.
    + unfold bind. rewrite datetime_now_spec.
      destruct (_ <? _)%Z.
      * destruct (IH new (advance 1 w)) as (r & Hr & Hsub & Hin).
        exists r. split; [done|]. split; [by apply sublist_cons|].
        intros q Hq Hnone. apply elem_of_cons in Hq as [->|Hq]; [congruence|].
        by apply Hin.
      * destruct (IH (Py.append new p) (advance 1 w)) as (r & Hr & Hsub & Hin).
        exists (p :: r). split.
        { rewrite Hr. unfold Py.append. by rewrite <- app_assoc. }
        split; [by apply sublist_skip|].
        intros q Hq Hnone. apply elem_of_cons in Hq as [->|Hq]; [by left|].
        right. by apply Hin.
    + destruct (IH (Py.append new p) w) as (r & Hr & Hsub & Hin).
      exists (p :: r). split.
      { rewrite Hr. unfold Py.append. by rewrite <- app_assoc. }
      split; [by apply sublist_skip|].
      intros q Hq Hnone. apply elem_of_cons in Hq as [->|Hq]; [by left|].
      right. by apply Hin.
Qed.

Lemma filter_loop_no_records n ps : ∀ new w,
  (∀ p, p ∈ ps → n !! token_address p = None) →
  filter_loop n ps new w = ((new ++ ps)%list, w).
Proof.
  induction ps as [|p ps IH]; intros new w Hnone; simpl.
  - by rewrite app_nil_r.
  - rewrite (Hnone p) by (by left). rewrite IH.
    + unfold Py.append. by rewrite <- app_assoc.
    + intros q Hq. apply Hnone. by right.
Qed.
End Records.

(** X3: [get_score_changes] returns a dict whose keys are exactly the
    token addresses of the candidates it was given. *)
Theorem get_score_changes_keys_are_the_candidates
    (w : StateManager.World) (ps : list Scanner.SolanaProject) :
  dom (StateManager.get_score_changes ps w).1
  = list_to_set (Scanner.token_address <$> ps).
Proof.
  unfold StateManager.get_score_changes, StateManager.bind,
    StateManager.get_notified, StateManager.ret. simpl.
  by rewrite changes_loop_dom, dom_empty_L, (left_id_L ∅ (∪)).
Qed.



(** X5: after any call of [mark_notified] every stored record is less than
    7 days old at the sweep's clock reading, and a record whose address
    the call does not write is stored afterwards exactly when it was
    stored before and is less than 7 days old. *)
Theorem mark_notified_keeps_exactly_the_recent
    (w : StateManager.World) (ps : list Scanner.SolanaProject) :
  let sweep_time := StateManager.time w (S (StateManager.tick w)) in
  let after := StateManager.notified (StateManager.mark_notified ps w).2 in
  (∀ a e, after !! a = Some e →
     (sweep_time - StateManager.last_notified e < StateManager.days 7)%Z)
  ∧ (∀ a e, a ∉ Scanner.token_address <$> ps →
       (after !! a = Some e
        ↔ StateManager.notified w !! a = Some e
          ∧ (sweep_time - StateManager.last_notified e < StateManager.days 7)%Z)).
Proof.
  intros sweep_time after. split.
  - intros a e He. by apply mark_notified_lookup in He as [_ ?].
  - intros a e Hnot. unfold after. rewrite mark_notified_lookup.
    by rewrite marked_lookup_notin.
Qed.

(** X6: whatever the clock reads, [filter_new] returns a sub-list of its
    input that holds every candidate with no stored record; when no
    candidate has a record it returns the input itself and reads no
    clock. *)
Theorem filter_new_passes_unrecorded
    (w : StateManager.World) (ps : list Scanner.SolanaProject) :
  (StateManager.filter_new ps w).1 `sublist_of` ps
  ∧ (∀ p, p ∈ ps →
       StateManager.notified w !! Scanner.token_address p = None →
       p ∈ (StateManager.filter_new ps w).1)
  ∧ ((∀ p, p ∈ ps →
        StateManager.notified w !! Scanner.token_address p = None) →
     StateManager.filter_new ps w = (ps, w)).
Proof.
  unfold StateManager.filter_new, StateManager.bind, StateManager.get_notified.
  destruct (filter_loop_sublist (StateManager.notified w) ps [] w)
    as (r & Hr & Hsub & Hin).
  rewrite Hr. simpl. split; [done|]. split; [done|].
  intros Hnone. by rewrite filter_loop_no_records.
Qed.

(** ** Expectation fusion, continued *)

Section Fusion.
Import ExpectationCalculator.

Ltac split_Qle_bool :=
  repeat match goal with
  | |- context [Qle_bool ?a ?b] =>
      let H := fresh "Hc" in
      destruct (Qle_bool a b) eqn:H;
      [apply Qle_bool_iff in H
      |apply not_true_iff_false in H; rewrite Qle_bool_iff in H]
  end.

Lemma base_step_fst s r : (base_step s r).1 = base_heat_of s.
Proof. unfold base_heat_of, base_step. by repeat case_match. Qed.

Lemma safety_step_fst l r : (safety_step l r).1 = safety_modifier_of l.
Proof. unfold safety_modifier_of, safety_step. by repeat case_match. Qed.

Lemma mania_step_fst m b r : (mania_step m b r).1 = mania_modifier_of m b.
Proof.
  unfold mania_modifier_of, mania_step.
  destruct (Py.Qgeb m 70); [|destruct (Qle_bool m 20)];
    by destruct (String.eqb b "high").
Qed.

Lemma trust_step_fst t r : (trust_step t r).1 = trust_modifier_of t.
Proof. unfold trust_modifier_of, trust_step. by repeat case_match. Qed.

Lemma market_step_fst k r : (market_step k r).1 = market_modifier_of k.
Proof. unfold market_modifier_of, market_step. by repeat case_match. Qed.

Lemma base_heat_range s : (1 ≤ base_heat_of s ≤ 5)%Z.
Proof. unfold base_heat_of, base_step. repeat case_match; simpl; lia. Qed.

Lemma safety_modifier_range l : (-2 ≤ safety_modifier_of l ≤ 0)%Z.
Proof. unfold safety_modifier_of, safety_step. repeat case_match; simpl; lia. Qed.

Lemma mania_modifier_range m b : (-2 ≤ mania_modifier_of m b ≤ 1)%Z.
Proof.
  unfold mania_modifier_of, mania_step.
  destruct (Py.Qgeb m 70); [|destruct (Qle_bool m 20)];
    destruct (String.eqb b "high"); simpl; lia.
Qed.

Lemma mania_modifier_low_range m : (-1 ≤ mania_modifier_of m "low" ≤ 1)%Z.
Proof.
  unfold mania_modifier_of, mania_step.
  destruct (Py.Qgeb m 70); [|destruct (Qle_bool m 20)]; simpl; lia.
Qed.

Lemma trust_modifier_range t : (-1 ≤ trust_modifier_of t ≤ 1)%Z.
Proof. unfold trust_modifier_of, trust_step. repeat case_match; simpl; lia. Qed.

Lemma market_modifier_range k : (-1 ≤ market_modifier_of k ≤ 1)%Z.
Proof. unfold market_modifier_of, market_step. repeat case_match; simpl; lia. Qed.

Lemma base_heat_mono s s' :
  (s <= s')%Q → (base_heat_of s ≤ base_heat_of s')%Z.
Proof.
  intros Hle. unfold base_heat_of, base_step, Py.Qgeb.
  split_Qle_bool; simpl; first [lia | lra].
Qed.

Lemma mania_modifier_mono m m' b :
  (m <= m')%Q → (mania_modifier_of m b ≤ mania_modifier_of m' b)%Z.
Proof.
  intros Hle. unfold mania_modifier_of, mania_step, Py.Qgeb.
  split_Qle_bool; destruct (String.eqb b "high"); simpl; first [lia | lra].
Qed.

Lemma trust_modifier_mono t t' :
  (t <= t')%Q → (trust_modifier_of (Some t) ≤ trust_modifier_of (Some t'))%Z.
Proof.
  intros Hle. unfold trust_modifier_of, trust_step, Py.Qgeb.
  split_Qle_bool; simpl; first [lia | lra].
Qed.

(** What [calculate] returns, field by field. *)
Lemma calculate_Ok total_score safety_result mania_scores trust_score trend :
  let b := base_heat_of total_score in
  let s := safety_modifier_of (risk_level_of safety_result) in
  let m := mania_modifier_of (mania_total_of mania_scores)
             (bot_risk_of mania_scores) in
  let t := trust_modifier_of trust_score in
  let k := market_modifier_of trend in
  ∃ ev,
    calculate total_score safety_result mania_scores trust_score trend = Py.Ok ev
    ∧ heat_level ev = final_heat_of b s m t k
    ∧ confidence ev
      = Py.round1 (confidence_of [b; (3 + s)%Z; (3 + m)%Z; (3 + t)%Z])
    ∧ (position_pct ev, position_label ev)
      = Py.get_default POSITION_TABLE (heat_level ev) (0.0%Q, "見送り")
    ∧ risk_reward ev = risk_reward_of (heat_level ev) (risk_level_of safety_result).
Proof.
  intros b s m t k. unfold calculate.
  pose proof (base_step_fst total_score []) as Hb.
  destruct (base_step total_score []) as [b' r1]. simpl in Hb.
  pose proof (safety_step_fst (risk_level_of safety_result) r1) as Hs.
  destruct (safety_step _ r1) as [s' r2]. simpl in Hs.
  pose proof (mania_step_fst (mania_total_of mania_scores)
                (bot_risk_of mania_scores) r2) as Hm.
  destruct (mania_step _ _ r2) as [m' r3]. simpl in Hm.
  pose proof (trust_step_fst trust_score r3) as Ht.
  destruct (trust_step _ r3) as [t' r4]. simpl in Ht.
  pose proof (market_step_fst trend r4) as Hk.
  destruct (market_step _ r4) as [k' r5]. simpl in Hk.
  subst b' s' m' t' k'. fold b s m t k.
  pose proof (final_heat_range b s m t k) as Hh. cbv zeta in Hh.
  destruct Hh as [Hh | [Hh | [Hh | [Hh | Hh]]]]; rewrite Hh;
    (eexists; split; [reflexivity|]; simpl; by rewrite ?Hh).
Qed.

Lemma position_mono (h h' : Z) :
  (1 ≤ h)%Z → (h ≤ h')%Z → (h' ≤ 5)%Z →
  ((Py.get_default POSITION_TABLE h (0.0%Q, "見送り")).1
   <= (Py.get_default POSITION_TABLE h' (0.0%Q, "見送り")).1)%Q.
Proof.
  intros H1 H2 H3.
  assert (Hh : h = 1%Z ∨ h = 2%Z ∨ h = 3%Z ∨ h = 4%Z ∨ h = 5%Z) by lia.
  assert (Hh' : h' = 1%Z ∨ h' = 2%Z ∨ h' = 3%Z ∨ h' = 4%Z ∨ h' = 5%Z) by lia.
  destruct Hh as [-> | [-> | [-> | [-> | ->]]]];
    destruct Hh' as [-> | [-> | [-> | [-> | ->]]]];
    first [lia | by vm_compute].
Qed.

Lemma final_heat_mono b s m t k b' s' m' t' k' :
  (b ≤ b')%Z → (s ≤ s')%Z → (m ≤ m')%Z → (t ≤ t')%Z → (k ≤ k')%Z →
  (final_heat_of b s m t k ≤ final_heat_of b' s' m' t' k')%Z.
Proof. unfold final_heat_of. lia. Qed.

Lemma confidence_floor (b s m t : Z) :
  (1 ≤ b ≤ 5)%Z → (-2 ≤ s ≤ 0)%Z → (-2 ≤ m ≤ 1)%Z → (-1 ≤ t ≤ 1)%Z →
  (52.2 <= Py.round1 (confidence_of [b; (3 + s)%Z; (3 + m)%Z; (3 + t)%Z]))%Q.
Proof.
  intros Hb Hs Hm Ht.
  assert (Hb' : b = 1%Z ∨ b = 2%Z ∨ b = 3%Z ∨ b = 4%Z ∨ b = 5%Z) by lia.
  assert (Hs' : s = (-2)%Z ∨ s = (-1)%Z ∨ s = 0%Z) by lia.
  assert (Hm' : m = (-2)%Z ∨ m = (-1)%Z ∨ m = 0%Z ∨ m = 1%Z) by lia.
  assert (Ht' : t = (-1)%Z ∨ t = 0%Z ∨ t = 1%Z) by lia.
  destruct Hb' as [-> | [-> | [-> | [-> | ->]]]];
    destruct Hs' as [-> | [-> | ->]];
    destruct Hm' as [-> | [-> | [-> | ->]]];
    destruct Ht' as [-> | [-> | ->]];
    apply Qle_bool_iff; vm_compute; reflexivity.
Qed.
End Fusion.

(** X7: with the other inputs fixed, a higher primary score, a higher
    mania total or a higher trust score never lowers the heat level nor
    the recommended position percentage. *)
Theorem heat_and_position_monotone
    (safety_result : option ExpectationCalculator.SafetyDict)
    (raw : option ExpectationCalculator.RawDict)
    (trend : option string)
    (score score' total total' trust trust' : Q) :
  (score <= score')%Q → (total <= total')%Q → (trust <= trust')%Q →
  ∃ ev ev',
    ExpectationCalculator.calculate score safety_result (mania_dict raw total)
      (Some trust) trend = Py.Ok ev
    ∧ ExpectationCalculator.calculate score' safety_result (mania_dict raw total')
        (Some trust') trend = Py.Ok ev'
    ∧ (ExpectationCalculator.heat_level ev ≤ ExpectationCalculator.heat_level ev')%Z
    ∧ (ExpectationCalculator.position_pct ev
       <= ExpectationCalculator.position_pct ev')%Q.
Proof.
  intros Hscore Htotal Htrust.
  destruct (calculate_Ok score safety_result (mania_dict raw total)
              (Some trust) trend) as (ev & Hev & Hh & _ & Hp & _).
  destruct (calculate_Ok score' safety_result (mania_dict raw total')
              (Some trust') trend) as (ev' & Hev' & Hh' & _ & Hp' & _).
  exists ev, ev'. split; [done|]. split; [done|].
  assert (Hle : (ExpectationCalculator.heat_level ev
                 ≤ ExpectationCalculator.heat_level ev')%Z).
  { rewrite Hh, Hh'. apply final_heat_mono; try lia.
    - by apply base_heat_mono.
    - by apply mania_modifier_mono.
    - by apply trust_modifier_mono. }
  split; [done|].
  replace (ExpectationCalculator.position_pct ev)
    with (ExpectationCalculator.position_pct ev,
          ExpectationCalculator.position_label ev).1 by done.
  replace (ExpectationCalculator.position_pct ev')
    with (ExpectationCalculator.position_pct ev',
          ExpectationCalculator.position_label ev').1 by done.
  rewrite Hp, Hp'. apply position_mono; [|done|].
  - rewrite Hh. unfold ExpectationCalculator.final_heat_of. lia.
  - rewrite Hh'. unfold ExpectationCalculator.final_heat_of. lia.
Qed.

Lemma heat_and_position_monotone_witness :
  (40 <= 80)%Q ∧ (10 <= 75)%Q ∧ (20 <= 90)%Q
  ∧ ∃ ev ev',
      ExpectationCalculator.calculate 40 None (mania_dict None 10) (Some 20%Q) None
      = Py.Ok ev
      ∧ ExpectationCalculator.calculate 80 None (mania_dict None 75) (Some 90%Q) None
        = Py.Ok ev'
      ∧ (ExpectationCalculator.heat_level ev ≤ ExpectationCalculator.heat_level ev')%Z
      ∧ (ExpectationCalculator.position_pct ev
         <= ExpectationCalculator.position_pct ev')%Q.
Proof.
  assert (H1 : (40 <= 80)%Q) by (by vm_compute).
  assert (H2 : (10 <= 75)%Q) by (by vm_compute).
  assert (H3 : (20 <= 90)%Q) by (by vm_compute).
  exact (conj H1 (conj H2 (conj H3
           (heat_and_position_monotone None None None 40 80 10 75 20 90 H1 H2 H3)))).
Defined.

(** X8: the confidence [calculate] returns is never below 52.2, so the
    floor of 10 is never reached; and the market trend, which moves the
    heat, leaves the confidence as it is. *)
Theorem confidence_floor_and_trend_independence
    (total_score : Q)
    (safety_result : option ExpectationCalculator.SafetyDict)
    (mania_scores : option ExpectationCalculator.ManiaDict)
    (trust_score : option Q) (trend trend' : option string) :
  ∃ ev ev',
    ExpectationCalculator.calculate total_score safety_result mania_scores
      trust_score trend = Py.Ok ev
    ∧ ExpectationCalculator.calculate total_score safety_result mania_scores
        trust_score trend' = Py.Ok ev'
    ∧ (52.2 <= ExpectationCalculator.confidence ev)%Q
    ∧ ExpectationCalculator.confidence ev' = ExpectationCalculator.confidence ev.
Proof.
  destruct (calculate_Ok total_score safety_result mania_scores trust_score trend)
    as (ev & Hev & _ & Hc & _).
  destruct (calculate_Ok total_score safety_result mania_scores trust_score trend')
    as (ev' & Hev' & _ & Hc' & _).
  exists ev, ev'. split; [done|]. split; [done|]. split; [|congruence].
  rewrite Hc. apply confidence_floor.
  - apply base_heat_range.
  - apply safety_modifier_range.
  - apply mania_modifier_range.
  - apply trust_modifier_range.
Qed.

(** ** One-sided rounding bounds *)

Section RoundingSides.
Import Py.

Lemma round_half_even_upper (b : Z) (q : Q) :
  (q <= inject_Z b)%Q → (round_half_even q ≤ b)%Z.
Proof.
  intros Hb.
  assert (Hhi : (Qfloor q ≤ b)%Z).
  { rewrite <- (Qfloor_Z b). by apply Qfloor_resp_le. }
  assert (Hstep : (0 < q - inject_Z (Qfloor q))%Q → (Qfloor q + 1 ≤ b)%Z).
  { intros Hpos.
    assert (Hlt : (inject_Z (Qfloor q) < inject_Z b)%Q) by lra.
    rewrite <- Zlt_Qlt in Hlt. lia. }
  unfold round_half_even.
  destruct (Qcompare_spec (q - inject_Z (Qfloor q)) (1 # 2)) as [He|Hl|Hg].
  - destruct (Z.even (Qfloor q)); [lia|]. apply Hstep. lra.
  - lia.
  - apply Hstep. lra.
Qed.

Lemma round_half_even_lower (a : Z) (q : Q) :
  (inject_Z a <= q)%Q → (a ≤ round_half_even q)%Z.
Proof.
  intros Ha.
  assert (Hlo : (a ≤ Qfloor q)%Z).
  { rewrite <- (Qfloor_Z a). by apply Qfloor_resp_le. }
  unfold round_half_even.
  destruct (Qcompare (q - inject_Z (Qfloor q)) (1 # 2));
    [destruct (Z.even (Qfloor q))| |]; lia.
Qed.

(** [round(q, 1)] keeps a bound given in tenths. *)
Lemma round1_upper (b : Z) (q : Q) :
  (q * 10 <= inject_Z b)%Q → (round1 q * 10 <= inject_Z b)%Q.
Proof.
  intros Hb. apply round_half_even_upper in Hb.
  unfold round1. rewrite Qred_correct.
  set (z := round_half_even (q * 10)) in *.
  unfold Qle, Qdiv, Qmult, Qinv, inject_Z; simpl. lia.
Qed.

Lemma round1_lower (a : Z) (q : Q) :
  (inject_Z a <= q * 10)%Q → (inject_Z a <= round1 q * 10)%Q.
Proof.
  intros Ha. apply round_half_even_lower in Ha.
  unfold round1. rewrite Qred_correct.
  set (z := round_half_even (q * 10)) in *.
  unfold Qle, Qdiv, Qmult, Qinv, inject_Z; simpl. lia.
Qed.
End RoundingSides.

(** ** Social velocity *)

Section Velocity.
Import SocialVelocityAnalyzer.

Lemma Qmin_100_le (v : Q) : (Qmin 100 v <= 100)%Q.
Proof. apply Q.le_min_l. Qed.

Lemma Qmin_100_nonneg (v : Q) : (0 <= v)%Q → (0 <= Qmin 100 v)%Q.
Proof. intros Hv. apply Q.min_glb; [lra|done]. Qed.

Lemma scaled_le_100 (v c : Q) :
  (0 <= c)%Q → (c <= 1)%Q → (v <= 100)%Q → (v * c <= 100)%Q.
Proof. intros Hc0 Hc1 Hv. destruct (Qlt_le_dec v 0); nra. Qed.

Lemma scaled_nonneg (v c : Q) : (0 <= c)%Q → (0 <= v)%Q → (0 <= v * c)%Q.
Proof. intros. by apply Qmult_le_0_compat. Qed.

Lemma round1_le_100 (v : Q) : (v <= 100)%Q → (Py.round1 v <= 100)%Q.
Proof.
  intros Hv.
  pose proof (round1_upper 1000 v) as Hr.
  change (inject_Z 1000) with 1000%Q in Hr. lra.
Qed.

Lemma round1_nonneg (v : Q) : (0 <= v)%Q → (0 <= Py.round1 v)%Q.
Proof.
  intros Hv.
  pose proof (round1_lower 0 v) as Hr.
  change (inject_Z 0) with 0%Q in Hr. lra.
Qed.

Lemma round1_ge_tenth (v : Q) : (0.1 <= v)%Q → (0.1 <= Py.round1 v)%Q.
Proof.
  intros Hv.
  pose proof (round1_lower 1 v) as Hr.
  change (inject_Z 1) with 1%Q in Hr. lra.
Qed.

Lemma velocity_score_le_100 (log10 : Q → Q) (now created_at : Z)
    (twitter_raw : TwitterRaw) :
  (velocity_score (analyze log10 now created_at twitter_raw) <= 100)%Q.
Proof.
  unfold analyze.
  destruct (default 0%Z (followers twitter_raw) =? 0)%Z; [done|].
  set (age := Qmax _ 0.1).
  set (fpd := (inject_Z (default 0%Z (followers twitter_raw)) / age)%Q).
  set (v0 := if Py.Qgtb fpd 0 then Qmin 100 (log10 (Qmax 1 fpd) * 33) else 0%Q).
  set (v1 := if Py.Qltb age 3 && (500 <? default 0%Z (followers twitter_raw))%Z
             then Qmin 100 (v0 * 1.5) else v0).
  cbn [velocity_score].
  assert (H0 : (v0 <= 100)%Q).
  { unfold v0. destruct (Py.Qgtb fpd 0); [apply Qmin_100_le|done]. }
  assert (H1 : (v1 <= 100)%Q).
  { unfold v1. destruct (Py.Qltb age 3 && _); [apply Qmin_100_le|done]. }
  apply round1_le_100.
  destruct (Py.Qgtb age 30 && _); [|done].
  apply scaled_le_100; [lra|lra|done].
Qed.
End Velocity.

(** X9: for every logarithm function, clock reading, creation time and
    social profile, the velocity score is at most 100; without followers
    the result is all zero; with followers the reported age is at least
    0.1 day; and the score is non-negative as soon as the logarithm is
    non-negative from 1 on. *)
Theorem velocity_score_bounded
    (log10 : Q → Q) (now created_at : Z) (twitter_raw : TwitterRaw) :
  let r := SocialVelocityAnalyzer.analyze log10 now created_at twitter_raw in
  (SocialVelocityAnalyzer.velocity_score r <= 100)%Q
  ∧ (default 0%Z (followers twitter_raw) = 0%Z →
     r = {| SocialVelocityAnalyzer.velocity_score := 0;
            SocialVelocityAnalyzer.followers_per_day := 0;
            SocialVelocityAnalyzer.age_days := 0 |})
  ∧ (default 0%Z (followers twitter_raw) ≠ 0%Z →
     (0.1 <= SocialVelocityAnalyzer.age_days r)%Q)
  ∧ ((∀ x, (1 <= x)%Q → (0 <= log10 x)%Q) →
     (0 <= SocialVelocityAnalyzer.velocity_score r)%Q).
Proof.
  cbv zeta. unfold SocialVelocityAnalyzer.analyze.
  destruct (Z.eqb_spec (default 0%Z (followers twitter_raw)) 0) as [Hz|Hnz].
  { split; [done|]. split; [done|]. split; [done|]. done. }
  set (age := Qmax _ 0.1).
  set (fpd := (inject_Z (default 0%Z (followers twitter_raw)) / age)%Q).
  set (v0 := if Py.Qgtb fpd 0 then Qmin 100 (log10 (Qmax 1 fpd) * 33) else 0%Q).
  set (v1 := if Py.Qltb age 3 && (500 <? default 0%Z (followers twitter_raw))%Z
             then Qmin 100 (v0 * 1.5) else v0).
  set (v2 := if Py.Qgtb age 30 && (default 0%Z (followers twitter_raw) <? 100)%Z
             then (v1 * 0.3)%Q else v1).
  cbn [SocialVelocityAnalyzer.velocity_score SocialVelocityAnalyzer.age_days].
  split; [|split; [done|split]].
  - pose proof (velocity_score_le_100 log10 now created_at twitter_raw) as Hv.
    unfold SocialVelocityAnalyzer.analyze in Hv.
    destruct (Z.eqb_spec (default 0%Z (followers twitter_raw)) 0); [done|].
    exact Hv.
  - intros _. apply round1_ge_tenth. apply Q.le_max_r.
  - intros Hlog.
    assert (P0 : (0 <= v0)%Q).
    { unfold v0. destruct (Py.Qgtb fpd 0); [|done].
      apply Qmin_100_nonneg, scaled_nonneg; [lra|].
      apply Hlog, Q.le_max_l. }
    assert (P1 : (0 <= v1)%Q).
    { unfold v1. destruct (Py.Qltb age 3 && _); [|done].
      apply Qmin_100_nonneg, scaled_nonneg; [lra|done]. }
    assert (P2 : (0 <= v2)%Q).
    { unfold v2. destruct (Py.Qgtb age 30 && _); [|done].
      apply scaled_nonneg; [lra|done]. }
    by apply round1_nonneg.
Qed.

(** ** Bot likelihood, continued *)

Section BotResult.
Import BotDetector.

Lemma tallied_add (acc : Z * list string) (k : Z) (s : string) :
  (0 < k)%Z → tallied acc → tallied ((acc.1 + k)%Z, Py.append acc.2 s).
Proof.
  intros Hk [Hpos _]. split; simpl; [lia|].
  unfold Py.append. split.
  - intros Hnil. by apply app_eq_nil in Hnil as [_ ?].
  - lia.
Qed.

Lemma step_ratio_tallied f g acc : tallied acc → tallied (step_ratio f g acc).
Proof.
  intros H. unfold step_ratio.
  repeat case_match; try done. by apply tallied_add.
Qed.

Lemma step_tweets_tallied f t acc : tallied acc → tallied (step_tweets f t acc).
Proof.
  intros H. unfold step_tweets.
  repeat case_match; try done. by apply tallied_add.
Qed.

Lemma step_engagement_tallied f t l acc :
  tallied acc → tallied (step_engagement f t l acc).
Proof.
  intros H. unfold step_engagement.
  repeat case_match; try done. by apply tallied_add.
Qed.

Lemma step_round_number_tallied f acc :
  tallied acc → tallied (step_round_number f acc).
Proof.
  intros H. unfold step_round_number.
  repeat case_match; try done. by apply tallied_add.
Qed.

Lemma bot_score_range (twitter_raw : TwitterRaw) :
  (0 ≤ bot_score (analyze twitter_raw) ≤ 90)%Z.
Proof.
  rewrite analyze_score. cbv zeta.
  destruct (_ =? 0)%Z; [lia|].
  pose proof (step_ratio_fst (default 0%Z (followers twitter_raw))
                (or_one (default 1%Z (following twitter_raw))) (0%Z, [])) as [_ ?].
  pose proof (step_tweets_fst (default 0%Z (followers twitter_raw))
                (default 0%Z (tweets twitter_raw)) (0%Z, [])) as [_ ?].
  pose proof (step_engagement_fst (default 0%Z (followers twitter_raw))
                (default 0%Z (tweets twitter_raw)) (default 0%Z (likes twitter_raw))
                (0%Z, [])) as [_ ?].
  pose proof (step_round_number_fst (default 0%Z (followers twitter_raw)) (0%Z, []))
    as [_ ?].
  lia.
Qed.
End BotResult.

(** X10: for every social profile the bot score is at most 90, so the cap
    of 100 never applies; the risk label is "high" exactly from 50 up,
    "medium" exactly from 25 to below 50 and "low" exactly below 25; there
    is no indicator exactly when the score is 0; and a profile without
    followers gets the default result. *)
Theorem bot_result_is_consistent (twitter_raw : TwitterRaw) :
  let r := BotDetector.analyze twitter_raw in
  (0 ≤ BotDetector.bot_score r ≤ 90)%Z
  ∧ (BotDetector.bot_risk r = "high" ↔ (50 ≤ BotDetector.bot_score r)%Z)
  ∧ (BotDetector.bot_risk r = "medium"
     ↔ (25 ≤ BotDetector.bot_score r < 50)%Z)
  ∧ (BotDetector.bot_risk r = "low" ↔ (BotDetector.bot_score r < 25)%Z)
  ∧ (BotDetector.indicators r = [] ↔ BotDetector.bot_score r = 0%Z)
  ∧ (default 0%Z (followers twitter_raw) = 0%Z →
     r = {| BotDetector.bot_risk := "low"; BotDetector.bot_score := 0;
            BotDetector.indicators := [] |}).
Proof.
  cbv zeta. unfold BotDetector.analyze.
  set (f := default 0%Z (followers twitter_raw)).
  set (g := if (default 1%Z (following twitter_raw) =? 0)%Z then 1%Z
            else default 1%Z (following twitter_raw)).
  set (t := default 0%Z (tweets twitter_raw)).
  set (l := default 0%Z (likes twitter_raw)).
  destruct (Z.eqb_spec f 0) as [Hz|Hnz].
  { simpl. repeat split; try done; try lia. }
  set (acc := BotDetector.step_round_number f
                (BotDetector.step_engagement f t l
                   (BotDetector.step_tweets f t
                      (BotDetector.step_ratio f g (0%Z, []))))).
  cbn [BotDetector.bot_score BotDetector.bot_risk BotDetector.indicators].
  assert (Htal : tallied acc).
  { unfold acc. apply step_round_number_tallied, step_engagement_tallied,
      step_tweets_tallied, step_ratio_tallied. by split. }
  assert (Hmax : (acc.1 ≤ 90)%Z).
  { unfold acc.
    destruct (step_round_number_fst f
                (BotDetector.step_engagement f t l
                   (BotDetector.step_tweets f t
                      (BotDetector.step_ratio f g (0%Z, []))))) as [-> ?].
    destruct (step_engagement_fst f t l
                (BotDetector.step_tweets f t
                   (BotDetector.step_ratio f g (0%Z, [])))) as [-> ?].
    destruct (step_tweets_fst f t (BotDetector.step_ratio f g (0%Z, [])))
      as [-> ?].
    destruct (step_ratio_fst f g (0%Z, [])) as [-> ?]. simpl. lia. }
  destruct Htal as [Hpos Hnil].
  rewrite (Z.min_r 100 (acc.1)) by lia.
  split; [lia|].
  destruct (Z.leb_spec 50 (acc.1)); [|destruct (Z.leb_spec 25 (acc.1))];
    (split; [split; intros; first [done | lia]|]);
    (split; [split; intros; first [done | lia]|]);
    (split; [split; intros; first [done | lia]|]);
    (split; [done|]); done.
Qed.

(** ** Holder analysis, continued *)

Section Holders.
Import SmartMoneyAnalyzer.

Lemma scan_smart_count total hs : ∀ c risk, (scan total hs c risk).1 = c.
Proof.
  induction hs as [|h hs IH]; intros c risk; simpl; [done|].
  by rewrite IH.
Qed.


(** The result of [analyze] on a holder list that is not empty. *)
Lemma analyze_fields (holders : list Holder) :
  holders ≠ [] →
  let total := Py.Qsum (sampled holders) in
  let r := analyze (Some holders) in
  smart_money_count r = 0%Z
  ∧ smart_money_score r = 0%Z
  ∧ dev_wallet_risk r = (scan total (take 20 holders) 0 "unknown").2
  ∧ holder_quality r
    = if Py.Qgtb total 0 && (1 <? length (take 20 holders))%nat
      then bucket (hd 0%Q (Py.sort_desc id (sampled holders)) / total)
      else 0%Z.
Proof.
  intros Hne. destruct holders as [|h rest]; [done|].
  cbv zeta. unfold analyze, Py.slice_to. fold (sampled (h :: rest)).
  pose proof (scan_smart_count (Py.Qsum (sampled (h :: rest)))
                (take 20 (h :: rest)) 0 "unknown") as Hc.
  destruct (scan _ _ _ _) as [smart_count risk]. simpl in Hc. subst smart_count.
  done.
Qed.

Lemma bucket_range (share : Q) : (10 ≤ bucket share ≤ 90)%Z.
Proof. unfold bucket. repeat case_match; lia. Qed.



Lemma smart_money_zero_helper (holders : option (list Holder)) :
  smart_money_score (analyze holders) = 0%Z
  ∧ smart_money_count (analyze holders) = 0%Z.
Proof.
  destruct holders as [[|h rest]|]; [done| |done].
  destruct (analyze_fields (h :: rest) ltac:(done)) as (Hc & Hs & _). done.
Qed.
End Holders.

(** X11: the smart-money score and count are 0 for every holder list: no
    wallet is on the allow-list. *)
Theorem smart_money_is_always_zero (holders : option (list Holder)) :
  SmartMoneyAnalyzer.smart_money_score (SmartMoneyAnalyzer.analyze holders) = 0%Z
  ∧ SmartMoneyAnalyzer.smart_money_count (SmartMoneyAnalyzer.analyze holders) = 0%Z.
Proof. apply smart_money_zero_helper. Qed.





(** ** The mania total and the expectation step of the cycle *)

Section Pipeline.
Import Scanner.

Lemma holder_quality_range (holders : option (list Holder)) :
  (0 ≤ SmartMoneyAnalyzer.holder_quality (SmartMoneyAnalyzer.analyze holders)
   ≤ 90)%Z.
Proof.
  destruct holders as [[|h rest]|]; [simpl; lia| |simpl; lia].
  destruct (analyze_fields (h :: rest) ltac:(done)) as (_ & _ & _ & ->).
  destruct (_ && _); [|lia].
  pose proof (bucket_range
                (hd 0%Q (Py.sort_desc id (sampled (h :: rest)))
                 / Py.Qsum (sampled (h :: rest)))). lia.
Qed.

Lemma composite_le_67 (hq b : Z) (v : Q) :
  (0 ≤ hq ≤ 90)%Z → (0 ≤ b)%Z → (v <= 100)%Q →
  (inject_Z 0 * 0.2 + inject_Z hq * 0.3 + v * 0.3
   + Qmax 0 (50 - inject_Z b * 0.3) * 0.2 <= 67)%Q.
Proof.
  intros Hhq Hb Hv.
  assert (Hq : (inject_Z hq <= 90)%Q).
  { change 90%Q with (inject_Z 90). rewrite <- Zle_Qle. lia. }
  assert (Hb' : (0 <= inject_Z b)%Q).
  { change 0%Q with (inject_Z 0). rewrite <- Zle_Qle. lia. }
  assert (Hmax : (Qmax 0 (50 - inject_Z b * 0.3) <= 50)%Q).
  { apply Q.max_lub; lra. }
  change (inject_Z 0) with 0%Q.
  set (x := inject_Z hq) in *. set (y := inject_Z b) in *.
  set (z := Qmax 0 (50 - y * 0.3)) in *. lra.
Qed.

Lemma enhance_scores_total_le_67 (log10 : Q → Q) holders now created twitter :
  (ManiaScorer.mania_total
     (ManiaScorer.enhance_scores log10 holders now created twitter) <= 67)%Q.
Proof.
  rewrite enhance_scores_total. cbv zeta.
  set (ms := ManiaScorer.enhance_scores log10 holders now created twitter).
  assert (Hc : (composite ms <= 67)%Q).
  { unfold composite, ms, ManiaScorer.enhance_scores.
    cbn [ManiaScorer.smart_money ManiaScorer.holder_quality
         ManiaScorer.social_velocity ManiaScorer._mania_raw ManiaScorer.raw_bot].
    destruct (smart_money_zero_helper holders) as [-> _].
    apply composite_le_67.
    - apply holder_quality_range.
    - apply bot_score_range.
    - apply velocity_score_le_100. }
  pose proof (round1_upper 670 (composite ms)) as Hr.
  change (inject_Z 670) with 670%Q in Hr. lra.
Qed.

Lemma mania_modifier_no_bonus (m : Q) (b : string) :
  (m < 70)%Q → (mania_modifier_of m b ≤ 0)%Z.
Proof.
  intros Hm. unfold mania_modifier_of, ExpectationCalculator.mania_step, Py.Qgeb.
  destruct (Qle_bool 70 m) eqn:Hc.
  { apply Qle_bool_iff in Hc. lra. }
  destruct (Qle_bool m 20); destruct (String.eqb b "high"); simpl; lia.
Qed.

Lemma mania_modifier_bot_le (m : Q) (b : string) :
  (mania_modifier_of m b ≤ mania_modifier_of m "low")%Z.
Proof.
  unfold mania_modifier_of, ExpectationCalculator.mania_step.
  destruct (Py.Qgeb m 70); [|destruct (Qle_bool m 20)];
    destruct (String.eqb b "high"); simpl; lia.
Qed.

Lemma mania_scores_of_total_only (scores : ScoreMap) :
  Main.mania_scores_of scores = total_only scores.
Proof. unfold Main.mania_scores_of, total_only. by destruct (mania scores). Qed.
End Pipeline.

(** X14: the mania total that [enhance_scores] returns never exceeds 67,
    whatever the holder list, the profile, the clock and the logarithm, so
    the fusion's bonus for a total of 70 or more is never earned by it:
    its mania modifier is at most 0. *)
Theorem mania_total_never_earns_the_bonus
    (log10 : Q → Q) (holders : option (list Holder)) (now created_at : Z)
    (twitter_raw : option TwitterRaw) :
  let ms := ManiaScorer.enhance_scores log10 holders now created_at twitter_raw in
  (ManiaScorer.mania_total ms <= 67)%Q
  ∧ ManiaScorer.smart_money ms = 0%Z
  ∧ ∀ bot_risk, (mania_modifier_of (ManiaScorer.mania_total ms) bot_risk ≤ 0)%Z.
Proof.
  cbv zeta.
  pose proof (enhance_scores_total_le_67 log10 holders now created_at twitter_raw)
    as Hle.
  split; [done|]. split.
  - unfold ManiaScorer.enhance_scores. cbn [ManiaScorer.smart_money].
    by destruct (smart_money_zero_helper holders).
  - intros b. apply mania_modifier_no_bonus. lra.
Qed.

(** X15: the expectation step of the screening cycle passes [calculate] a
    mania dict without the raw payload, since the key [_mania_raw] matches
    none of the kept prefixes: the bot risk it reads is always "low", and
    the heat it reports is never below the heat [calculate] gives on the
    whole score map. *)
Theorem cycle_expectation_ignores_bot_risk
    (safety_results : gmap string SafetyChecker.Safety)
    (p : Scanner.SolanaProject) :
  Main.mania_scores_of (Scanner.scores p) = total_only (Scanner.scores p)
  ∧ ExpectationCalculator.bot_risk_of
      (Some (Main.mania_scores_of (Scanner.scores p))) = "low"
  ∧ ∃ ev ev',
      Main.expectation_of safety_results p = Py.Ok ev
      ∧ ExpectationCalculator.calculate (Scanner.total_score p)
          (Main.safety_of safety_results p)
          (Some (whole_dict (Scanner.scores p))) None None = Py.Ok ev'
      ∧ (ExpectationCalculator.heat_level ev'
         ≤ ExpectationCalculator.heat_level ev)%Z.
Proof.
  split; [apply mania_scores_of_total_only|].
  split; [by rewrite mania_scores_of_total_only|].
  unfold Main.expectation_of. rewrite mania_scores_of_total_only.
  destruct (calculate_Ok (Scanner.total_score p) (Main.safety_of safety_results p)
              (Some (total_only (Scanner.scores p))) None None)
    as (ev & Hev & Hh & _).
  destruct (calculate_Ok (Scanner.total_score p) (Main.safety_of safety_results p)
              (Some (whole_dict (Scanner.scores p))) None None)
    as (ev' & Hev' & Hh' & _).
  exists ev, ev'. split; [done|]. split; [done|].
  rewrite Hh, Hh'. apply final_heat_mono; try lia.
  replace (ExpectationCalculator.mania_total_of
             (Some (whole_dict (Scanner.scores p))))
    with (ExpectationCalculator.mania_total_of
            (Some (total_only (Scanner.scores p)))) by done.
  replace (ExpectationCalculator.bot_risk_of
             (Some (total_only (Scanner.scores p)))) with "low" by done.
  apply mania_modifier_bot_le.
Qed.

(** X16: in the screening cycle a candidate enhanced by step 3 never gets a
    heat level above the base heat of its blended score, whatever its
    safety result: no modifier of the cycle is positive. A candidate with
    no mania entry (mania scoring switched off) is docked: its heat is at
    most the base heat less one, and at least 1. *)
Theorem cycle_heat_at_most_base
    (log10 : Q → Q) (fetch_holders : string → option (list Holder))
    (clock : nat → Z) (i : nat)
    (safety_results : gmap string SafetyChecker.Safety)
    (p : Scanner.SolanaProject) :
  (∃ ev,
     Main.expectation_of safety_results (Main.enhance log10 fetch_holders clock i p)
     = Py.Ok ev
     ∧ (ExpectationCalculator.heat_level ev
        ≤ base_heat_of
            (Scanner.total_score (Main.enhance log10 fetch_holders clock i p)))%Z)
  ∧ (Scanner.mania (Scanner.scores p) = None →
     ∃ ev,
       Main.expectation_of safety_results p = Py.Ok ev
       ∧ (ExpectationCalculator.heat_level ev
          ≤ Z.max 1 (base_heat_of (Scanner.total_score p) - 1))%Z).
Proof.
  split.
  - set (p' := Main.enhance log10 fetch_holders clock i p).
    unfold Main.expectation_of. rewrite mania_scores_of_total_only.
    destruct (calculate_Ok (Scanner.total_score p') (Main.safety_of safety_results p')
                (Some (total_only (Scanner.scores p'))) None None)
      as (ev & Hev & Hh & _).
    exists ev. split; [done|]. rewrite Hh.
    pose proof (base_heat_range (Scanner.total_score p')) as Hb.
    pose proof (safety_modifier_range
                  (ExpectationCalculator.risk_level_of
                     (Main.safety_of safety_results p'))) as Hs.
    assert (Hm : (mania_modifier_of
                    (ExpectationCalculator.mania_total_of
                       (Some (total_only (Scanner.scores p'))))
                    (ExpectationCalculator.bot_risk_of
                       (Some (total_only (Scanner.scores p')))) ≤ 0)%Z).
    { apply mania_modifier_no_bonus.
      pose proof (enhance_scores_total_le_67 log10
                    (fetch_holders (Scanner.token_address p)) (clock i)
                    (Scanner.created_at p)
                    (Scanner._twitter_raw (Scanner.scores p))) as Hle.
      change (ExpectationCalculator.mania_total_of
                (Some (total_only (Scanner.scores p'))))
        with (ManiaScorer.mania_total
                (ManiaScorer.enhance_scores log10
                   (fetch_holders (Scanner.token_address p)) (clock i)
                   (Scanner.created_at p)
                   (Scanner._twitter_raw (Scanner.scores p)))).
      lra. }
    change (trust_modifier_of None) with 0%Z.
    change (market_modifier_of None) with 0%Z.
    unfold ExpectationCalculator.final_heat_of. lia.
  - intros Hnone. unfold Main.expectation_of. rewrite mania_scores_of_total_only.
    destruct (calculate_Ok (Scanner.total_score p) (Main.safety_of safety_results p)
                (Some (total_only (Scanner.scores p))) None None)
      as (ev & Hev & Hh & _).
    exists ev. split; [done|]. rewrite Hh.
    pose proof (base_heat_range (Scanner.total_score p)) as Hb.
    pose proof (safety_modifier_range
                  (ExpectationCalculator.risk_level_of
                     (Main.safety_of safety_results p))) as Hs.
    assert (Hm : mania_modifier_of
                   (ExpectationCalculator.mania_total_of
                      (Some (total_only (Scanner.scores p))))
                   (ExpectationCalculator.bot_risk_of
                      (Some (total_only (Scanner.scores p)))) = (-1)%Z).
    { unfold total_only. rewrite Hnone. reflexivity. }
    rewrite Hm.
    change (trust_modifier_of None) with 0%Z.
    change (market_modifier_of None) with 0%Z.
    unfold ExpectationCalculator.final_heat_of. lia.
Qed.

Section Checks.
Import Scanner SafetyChecker.

Lemma check_multiple_loop_lookup rugcheck_of projects : ∀ i results a,
  (a ∉ token_address <$> projects →
   check_multiple_loop rugcheck_of i projects results !! a = results !! a)
  ∧ (a ∈ token_address <$> projects →
     ∃ j q, projects !! j = Some q ∧ token_address q = a
            ∧ check_multiple_loop rugcheck_of i projects results !! a
              = Some (check (rugcheck_of (i + j)%nat))).
Proof.
  induction projects as [|p ps IH]; intros i results a; simpl.
  - split; [done|]. intros Hin. by apply elem_of_nil in Hin.
  - destruct (IH (S i) (<[token_address p := check (rugcheck_of i)]> results) a)
      as [Hnot Hin].
    split.
    + intros Hn. rewrite ?fmap_cons, not_elem_of_cons in Hn.
      destruct Hn as [Hne Hn]. rewrite Hnot by done. by rewrite lookup_insert_ne.
    + intros Ha. destruct (decide (a ∈ token_address <$> ps)) as [Hl|Hl].
      * destruct (Hin Hl) as (j & q & Hj & Hq & Hlk).
        exists (S j), q. split; [done|]. split; [done|].
        rewrite Hlk. do 3 f_equal. lia.
      * rewrite ?fmap_cons in Ha. apply elem_of_cons in Ha as [->|Ha]; [|done].
        exists 0%nat, p. split; [done|]. split; [done|].
        rewrite Hnot by done. rewrite lookup_insert_eq. do 3 f_equal. lia.
Qed.
End Checks.

(** X17: [check_multiple] returns an entry for every project it was given
    and for no other address: the entry of a project is the check of the
    report fetched for a project of that address, so the expectation step
    always finds a safety result for a checked candidate. *)
Theorem check_multiple_covers_every_project
    (rugcheck_of : nat → SafetyChecker.Report)
    (projects : list Scanner.SolanaProject) :
  (∀ p, p ∈ projects →
     ∃ j q, projects !! j = Some q
            ∧ Scanner.token_address q = Scanner.token_address p
            ∧ SafetyChecker.check_multiple rugcheck_of projects
                !! Scanner.token_address p
              = Some (SafetyChecker.check (rugcheck_of j))
            ∧ Main.safety_of (SafetyChecker.check_multiple rugcheck_of projects) p
              = Some {| ExpectationCalculator.risk_level :=
                          Some (SafetyChecker.risk_level
                                  (SafetyChecker.check (rugcheck_of j))) |})
  ∧ (∀ a, a ∉ Scanner.token_address <$> projects →
       SafetyChecker.check_multiple rugcheck_of projects !! a = None).
Proof.
  split.
  - intros p Hp.
    assert (Hin : Scanner.token_address p ∈ Scanner.token_address <$> projects).
    { apply list_elem_of_fmap. by exists p. }
    destruct (check_multiple_loop_lookup rugcheck_of projects 0 ∅
                (Scanner.token_address p)) as [_ Hsome].
    destruct (Hsome Hin) as (j & q & Hj & Hq & Hl).
    exists j, q. split; [done|]. split; [done|].
    unfold Main.safety_of, SafetyChecker.check_multiple. rewrite Hl. done.
  - intros a Hnot.
    destruct (check_multiple_loop_lookup rugcheck_of projects 0 ∅ a) as [Hnone _].
    unfold SafetyChecker.check_multiple. by rewrite Hnone.
Qed.

(** ** Safety classification, continued *)

Section Warnings.
Import SafetyChecker.








End Warnings.



(** ** Liquidity and range monitors *)

Section Liquidity.
Import LiquidityMonitor.



Lemma check_token_first_sight token response prev :
  (prev !! token = None ∨ ∃ z, prev !! token = Some z ∧ (z == 0)%Q) →
  (_check_token token response prev).1 = None.
Proof.
  intros Hfirst. unfold _check_token.
  destruct response as [[|pair0 rest]|]; [done| |done].
  destruct Hfirst as [->|(z & -> & Hz)]; [done|].
  apply Qeq_bool_iff in Hz. by rewrite Hz.
Qed.

Lemma check_token_map token response prev :
  (_check_token token response prev).2 = prev
  ∨ ∃ current, (_check_token token response prev).2 = <[token := current]> prev.
Proof.
  unfold _check_token.
  destruct response as [[|pair0 rest]|]; [by left| |by left].
  right. exists (default 0%Q (liquidity_usd pair0)).
  destruct (prev !! token); [|done].
  by repeat case_match.
Qed.

Lemma check_loop_fresh fetch tokens : ∀ i alerts prev,
  NoDup tokens →
  (∀ t, t ∈ tokens → prev !! t = None) →
  (check_loop fetch i tokens alerts prev).1 = alerts.
Proof.
  induction tokens as [|t tokens IH]; intros i alerts prev Hnd Hnone; simpl.
  - done.
  - apply NoDup_cons in Hnd as [Hnot Hnd].
    pose proof (check_token_first_sight t (fetch i) prev
                  (or_introl (Hnone t ltac:(by left)))) as Hno.
    pose proof (check_token_map t (fetch i) prev) as Hmap.
    destruct (_check_token t (fetch i) prev) as [alert prev'].
    simpl in Hno, Hmap. subst alert.
    apply IH; [done|].
    intros t' Ht'.
    destruct Hmap as [->|(c & ->)].
    + apply Hnone. by right.
    + rewrite lookup_insert_ne; [apply Hnone; by right|].
      intros ->. done.
Qed.
End Liquidity.

(** X19: [_check_token] never alerts on the first sight of a token (no
    previous liquidity, or a previous liquidity of 0), whatever was
    fetched; a failed fetch or an answer without pairs leaves the stored
    liquidities as they were; and any answer with a pair stores the
    liquidity of its first pair for the token and changes no other
    token. *)
Theorem liquidity_first_sight_never_alerts
    (token : string) (response : option (list LiquidityMonitor.Pair))
    (prev : gmap string Q) :
  ((prev !! token = None ∨ ∃ z, prev !! token = Some z ∧ (z == 0)%Q) →
   (LiquidityMonitor._check_token token response prev).1 = None)
  ∧ ((response = None ∨ response = Some []) →
     LiquidityMonitor._check_token token response prev = (None, prev))
  ∧ (∀ pair0 rest, response = Some (pair0 :: rest) →
       (LiquidityMonitor._check_token token response prev).2
       = <[token := default 0%Q (LiquidityMonitor.liquidity_usd pair0)]> prev).
Proof.
  split; [apply check_token_first_sight|]. split.
  - by intros [->| ->].
  - intros pair0 rest ->. unfold LiquidityMonitor._check_token.
    destruct (prev !! token); [|done]. by repeat case_match.
Qed.



(** X21: the realtime cycle builds its liquidity monitor anew, with no
    previous liquidity stored: with distinct watch tokens it reports no
    liquidity alert, whatever the fetches return. *)
Theorem realtime_cycle_has_no_liquidity_alert
    (watch_tokens : list string)
    (fetch : nat → option (list LiquidityMonitor.Pair)) :
  NoDup watch_tokens →
  Main.realtime_liquidity_alerts watch_tokens fetch = [].
Proof.
  intros Hnd. unfold Main.realtime_liquidity_alerts, LiquidityMonitor.check_all.
  apply check_loop_fresh; [done|]. intros t _. apply lookup_empty.
Qed.

Lemma realtime_cycle_has_no_liquidity_alert_witness :
  let pairs (usd : Q) :=
    Some [ {| LiquidityMonitor.liquidity_usd := Some usd;
              LiquidityMonitor.symbol := None;
              LiquidityMonitor.pairAddress := None |} ] in
  NoDup ["So1"; "So2"]
  ∧ Main.realtime_liquidity_alerts ["So1"; "So2"]
      (λ i, pairs (if Nat.eqb i 0 then 5000%Q else 1%Q)) = [].
Proof.
  intros pairs.
  assert (Hnd : NoDup ["So1"; "So2"]).
  { apply (bool_decide_unpack _). reflexivity. }
  exact (conj Hnd (realtime_cycle_has_no_liquidity_alert _ _ Hnd)).
Defined.

Section Ranges.
Import RangeMonitor.

Lemma length_append {A} (l : list A) (x : A) :
  length (Py.append l x) = S (length l).
Proof. unfold Py.append. rewrite length_app. simpl. lia. Qed.

Lemma check_loop_sound data all_ranges ranges : ∀ alerts,
  (∀ r, r ∈ ranges → r ∈ all_ranges) →
  Forall (sound_range_alert all_ranges data) alerts →
  Forall (sound_range_alert all_ranges data) (check_loop data ranges alerts)
  ∧ (length (check_loop data ranges alerts) ≤ length alerts + length ranges)%nat.
Proof.
  induction ranges as [|[coin [low high]] ranges IH]; intros alerts Hsub Hall.
  - simpl. split; [done|lia].
  - cbn [check_loop].
    assert (Hsub' : ∀ r, r ∈ ranges → r ∈ all_ranges).
    { intros r Hr. apply Hsub. by right. }
    set (price := default 0%Q (data !! coin ≫= usd)).
    destruct (Qle_bool price 0) eqn:Hp.
    { destruct (IH alerts Hsub' Hall) as [? ?]. split; [done|cbn [length]; lia]. }
    apply not_true_iff_false in Hp. rewrite Qle_bool_iff in Hp.
    assert (Hpos : (0 < price)%Q) by lra.
    destruct (Py.Qltb price low) eqn:Hlow.
    { apply Qltb_lt in Hlow.
      destruct (IH (Py.append alerts
                      {| asset := upper3 3 coin; current_price := price;
                         range_low := low; range_high := high;
                         breach := "below";
                         change_24h :=
                           round2 (default 0%Q (data !! coin ≫= usd_24h_change)) |})
                  Hsub') as [Hs Hl].
      - unfold Py.append. apply Forall_app. split; [done|].
        apply Forall_singleton. exists coin, low, high.
        split; [apply Hsub; by left|]. simpl. repeat split; try done.
        left. by split.
      - split; [done|]. rewrite length_append in Hl.
        cbn [length] in *. lia. }
    apply Qltb_ge in Hlow.
    destruct (Py.Qgtb price high) eqn:Hhigh.
    { apply Qgtb_lt in Hhigh.
      destruct (IH (Py.append alerts
                      {| asset := upper3 3 coin; current_price := price;
                         range_low := low; range_high := high;
                         breach := "above";
                         change_24h :=
                           round2 (default 0%Q (data !! coin ≫= usd_24h_change)) |})
                  Hsub') as [Hs Hl].
      - unfold Py.append. apply Forall_app. split; [done|].
        apply Forall_singleton. exists coin, low, high.
        split; [apply Hsub; by left|]. simpl. repeat split; try done.
        right. by repeat split.
      - split; [done|]. rewrite length_append in Hl.
        cbn [length] in *. lia. }
    destruct (IH alerts Hsub' Hall) as [? ?]. split; [done|cbn [length]; lia].
Qed.
End Ranges.

(** X22: every alert of [RangeMonitor.check_all] is about a monitored coin
    whose fetched price is positive and outside its range: "below" under
    the lower bound, "above" over the upper bound and not under the lower
    one; there is at most one alert per monitored coin; no range or a
    failed fetch gives no alert; and [_load_ranges] monitors only ranges
    whose two bounds are positive. *)
Theorem range_alerts_are_breaches
    (ranges : list (string * (Q * Q)))
    (response : option (gmap string RangeMonitor.PriceData)) :
  (∀ data, response = Some data →
     Forall (sound_range_alert ranges data) (RangeMonitor.check_all ranges response))
  ∧ (length (RangeMonitor.check_all ranges response) ≤ length ranges)%nat
  ∧ (response = None → RangeMonitor.check_all ranges response = [])
  ∧ RangeMonitor.check_all [] response = []
  ∧ (∀ sol_low sol_high btc_low btc_high eth_low eth_high coin low high,
       (coin, (low, high))
         ∈ RangeMonitor._load_ranges sol_low sol_high btc_low btc_high
             eth_low eth_high →
       (0 < low)%Q ∧ (0 < high)%Q).
Proof.
  split; [|split; [|split; [|split]]].
  - intros data ->. destruct ranges as [|r ranges]; [done|].
    cbn [RangeMonitor.check_all].
    by apply (check_loop_sound data (r :: ranges) (r :: ranges) []).
  - destruct ranges as [|r ranges]; [simpl; lia|].
    destruct response as [data|]; [|simpl; lia].
    cbn [RangeMonitor.check_all].
    destruct (check_loop_sound data (r :: ranges) (r :: ranges) []) as [_ Hl];
      [done|done|]. simpl in *. lia.
  - intros ->. by destruct ranges.
  - done.
  - intros sl sh bl bh el eh coin low high. unfold RangeMonitor._load_ranges.
    intros Hin.
    repeat (apply elem_of_app in Hin as [Hin|Hin]);
      match type of Hin with
      | _ ∈ (if ?c then _ else _) =>
          destruct c eqn:Hc; [|by apply elem_of_nil in Hin]
      end;
      apply list_elem_of_singleton in Hin; simplify_eq;
      apply andb_true_iff in Hc as [H1 H2];
      apply Qgtb_lt in H1; apply Qgtb_lt in H2; done.
Qed.

(** ** The store steps of the screening cycle *)

Section Cycle.
Import Scanner StateManager.

Lemma filter_new_result_cycle w top top' :
  cycles_within_window w top top' →
  (filter_new top w).1 = List.filter (λ p, negb (suppressed w p)) top.
Proof.
  intros [_ Hstable]. unfold filter_new, bind, get_notified.
  rewrite (filter_loop_result (notified w) (fresh (time w (tick w)))).
  - simpl. apply filter_ext. intros p. apply keep_suppressed.
  - intros p e i Hp He Hi. apply (Hstable p e i); [done|done|].
    unfold cycle_readings. lia.
Qed.

(** The outcome of the store steps, from the outcome of [filter_new]. *)
Lemma screening_store_steps_spec top w :
  ∃ k, (k ≤ length top)%nat
    ∧ (filter_new top w).2 = advance k w
    ∧ Main.screening_store_steps top w
      = match (filter_new top w).1 with
        | [] =>
            ((None, (get_score_changes top w).1),
             (save_scan top (advance k w)).2)
        | p :: new =>
            ((Some (p :: new), (get_score_changes top w).1),
             (save_scan top (mark_notified (p :: new) (advance k w)).2).2)
        end.
Proof.
  unfold Main.screening_store_steps, bind, get_score_changes, get_notified, ret.
  unfold filter_new, bind, get_notified.
  destruct (filter_loop_frame (notified w) top [] w) as (k & Hk & Hw).
  exists k. split; [done|]. split; [done|].
  destruct (filter_loop (notified w) top [] w) as [new w1]. simpl in Hw. subst w1.
  cbn [fst snd]. destruct new as [|p new].
  - by destruct (save_scan top (advance k w)).
  - destruct (mark_notified (p :: new) (advance k w)) as [[] w2]. cbn [snd].
    by destruct (save_scan top w2) as [[] w3].
Qed.

(** After the first cycle every candidate has a record that is younger
    than 24 hours at every later reading of the two cycles. *)
Lemma records_after_cycle w top top' :
  cycles_within_window w top top' →
  let w1 := (Main.screening_store_steps top w).2 in
  time w1 = time w
  ∧ (tick w ≤ tick w1 ≤ tick w + length top + 3)%nat
  ∧ ∀ p, p ∈ top →
      ∃ e, notified w1 !! token_address p = Some e
           ∧ ∀ i, (tick w1 ≤ i)%nat → cycle_readings w top top' i →
                  fresh (time w i) e = true.
Proof.
  intros Hwin w1. pose proof Hwin as [Hclose Hstable].
  pose proof (filter_new_result_cycle w top top' Hwin) as Hnew.
  destruct (screening_store_steps_spec top w) as (k & Hk & Hw & Hsteps).
  unfold w1. rewrite Hsteps. clear w1 Hsteps.
  (* a suppressed candidate keeps a record that stays fresh *)
  assert (Hsup : ∀ p, p ∈ top → suppressed w p = true →
            ∃ e, notified w !! token_address p = Some e
                 ∧ ∀ i, cycle_readings w top top' i → fresh (time w i) e = true).
  { intros p Hp Hs. unfold suppressed in Hs.
    destruct (notified w !! token_address p) as [e|] eqn:He; [|done].
    exists e. split; [done|]. intros i Hi. by rewrite (Hstable p e i Hp He Hi). }
  destruct ((filter_new top w).1) as [|p0 new] eqn:Hres.
  - cbv beta iota. rewrite save_scan_spec. cbn [snd time tick notified advance].
    split; [done|]. split; [lia|].
    intros p Hp. destruct (Hsup p Hp) as (e & He & Hfresh).
    + destruct (suppressed w p) eqn:Hs; [done|]. exfalso.
      assert (Hin : p ∈ List.filter (λ p, negb (suppressed w p)) top).
      { apply list_elem_of_In, filter_In.
        split; [by apply list_elem_of_In|by rewrite Hs]. }
      rewrite <- Hnew in Hin. by apply elem_of_nil in Hin.
    + exists e. split; [done|]. intros i _ Hi. by apply Hfresh.
  - cbv beta iota. rewrite mark_notified_spec, save_scan_spec.
    cbn [snd time tick notified advance with_notified].
    split; [done|]. split; [lia|].
    set (tm := time w (k + tick w)). set (tc := time w (S (k + tick w))).
    intros p Hp.
    assert (Hrec : ∃ e, marked tm (p0 :: new) (notified w) !! token_address p = Some e
              ∧ ∀ i, (k + tick w ≤ i)%nat → cycle_readings w top top' i →
                     fresh (time w i) e = true).
    { destruct (decide (token_address p ∈ token_address <$> p0 :: new))
        as [Hin|Hnin].
      - destruct (marked_lookup_in tm (p0 :: new) (notified w) _ Hin)
          as (p' & _ & _ & Hl).
        exists (entry_of tm p'). split; [done|].
        intros i Hi Hr. unfold fresh. simpl. apply Z.ltb_lt.
        apply Hclose; [unfold cycle_readings in *; lia|done|done].
      - rewrite marked_lookup_notin by done.
        destruct (Hsup p Hp) as (e & He & Hfresh).
        + destruct (suppressed w p) eqn:Hs; [done|]. exfalso. apply Hnin.
          apply list_elem_of_fmap. exists p. split; [done|].
          rewrite Hnew. apply list_elem_of_In, filter_In.
          split; [by apply list_elem_of_In|by rewrite Hs].
        + exists e. split; [done|]. intros i _ Hi. by apply Hfresh. }
    destruct Hrec as (e & He & Hfresh).
    exists e. split.
    + apply swept_lookup. split; [done|].
      pose proof (Hfresh (S (k + tick w)) ltac:(lia)
                    ltac:(unfold cycle_readings; lia)) as Hc.
      unfold fresh in Hc. apply Z.ltb_lt in Hc. fold tc in Hc.
      unfold hours, days in *. lia.
    + intros i Hi Hr. apply Hfresh; [lia|done].
Qed.
End Cycle.

(** X23: the store steps of one screening cycle return the score changes
    read before any update and the candidates [filter_new] keeps (nothing
    when it keeps none); whether or not anything is notified they append
    exactly one scan record of the whole list as the newest history
    entry, within the cap of 100; and a cycle that notifies nothing leaves
    the notified map as it was. *)
Theorem cycle_store_steps
    (w : StateManager.World) (top : list Scanner.SolanaProject) :
  let result := (Main.screening_store_steps top w).1 in
  let w' := (Main.screening_store_steps top w).2 in
  result.2 = (StateManager.get_score_changes top w).1
  ∧ (result.1 = None ↔ (StateManager.filter_new top w).1 = [])
  ∧ (∀ new, result.1 = Some new → new = (StateManager.filter_new top w).1)
  ∧ (∃ t, last (StateManager.scans w') = Some (scan_record t top))
  ∧ length (StateManager.scans w')
    = Nat.min 100 (S (length (StateManager.scans w)))
  ∧ (result.1 = None → StateManager.notified w' = StateManager.notified w).
Proof.
  intros result w'. unfold result, w'.
  destruct (screening_store_steps_spec top w) as (k & Hk & Hw & ->).
  assert (Hlast : ∀ w0,
            StateManager.scans w0 = StateManager.scans w →
            (∃ t, last (StateManager.scans (StateManager.save_scan top w0).2)
                  = Some (scan_record t top))
            ∧ length (StateManager.scans (StateManager.save_scan top w0).2)
              = Nat.min 100 (S (length (StateManager.scans w)))).
  { intros w0 Hs.
    destruct (save_scan_appends_helper w0 top) as (Heq & Hlen & Hl).
    rewrite <- Hs. split; [by eexists|done]. }
  destruct ((StateManager.filter_new top w).1) as [|p0 new].
  - cbn [fst snd]. split; [done|]. split; [done|]. split; [done|].
    destruct (Hlast (advance k w) eq_refl) as [Ht Hlen].
    split; [done|]. split; [done|].
    intros _. by rewrite save_scan_spec.
  - cbn [fst snd]. split; [done|]. split; [done|].
    split; [by intros new' [= <-]|].
    destruct (Hlast (StateManager.mark_notified (p0 :: new) (advance k w)).2)
      as [Ht Hlen].
    { by rewrite mark_notified_spec. }
    split; [done|]. split; [done|]. done.
Qed.

(** X24: when a screening cycle over [top] completes and the next cycle
    runs within the 24-hour window over candidates whose addresses were
    all in [top], whatever their scores now, the next cycle notifies
    nothing: every such candidate was either notified by the first cycle
    or was already suppressed, and stays suppressed. *)
Theorem second_cycle_notifies_nothing
    (w : StateManager.World) (top top' : list Scanner.SolanaProject) :
  cycles_within_window w top top' →
  (∀ q, q ∈ top' →
     Scanner.token_address q ∈ Scanner.token_address <$> top) →
  let w1 := (Main.screening_store_steps top w).2 in
  (Main.screening_store_steps top' w1).1.1 = None.
Proof.
  intros Hwin Hsub w1.
  destruct (records_after_cycle w top top' Hwin) as (Htime & Htick & Hrec).
  fold w1 in Htime, Htick, Hrec.
  assert (Hrec' : ∀ q, q ∈ top' →
            ∃ e, StateManager.notified w1 !! Scanner.token_address q = Some e
                 ∧ ∀ i, (StateManager.tick w1 ≤ i)%nat →
                        cycle_readings w top top' i →
                        fresh (StateManager.time w i) e = true).
  { intros q Hq. destruct (proj1 (list_elem_of_fmap _ _ _) (Hsub q Hq))
      as (p & -> & Hp). by apply Hrec. }
  destruct (screening_store_steps_spec top' w1) as (k & Hk & Hw & ->).
  assert (Hnone : (StateManager.filter_new top' w1).1 = []).
  { unfold StateManager.filter_new, StateManager.bind, StateManager.get_notified.
    rewrite (filter_loop_result (StateManager.notified w1) (λ _, true)).
    - simpl. apply filter_all_false. intros q Hq.
      destruct (Hrec' q Hq) as (e & He & _). unfold keep. by rewrite He.
    - intros q e i Hq He Hi.
      destruct (Hrec' q Hq) as (e' & He' & Hfresh). simplify_eq.
      rewrite Htime. apply Hfresh; [lia|]. unfold cycle_readings. lia. }
  by rewrite Hnone.
Qed.

(** One hour after "So1" was notified, a cycle over "So1" and the new
    "So2", then a cycle over the two with other scores. *)
Lemma second_cycle_notifies_nothing_witness :
  let w := one_record_world 0 (StateManager.hours 1) in
  let top := [candidate "So1" 55; candidate "So2" 70] in
  let top' := [candidate "So2" 82; candidate "So1" 51] in
  cycles_within_window w top top'
  ∧ (∀ q, q ∈ top' →
       Scanner.token_address q ∈ Scanner.token_address <$> top)
  ∧ (Main.screening_store_steps top w).1.1 = Some [candidate "So2" 70]
  ∧ (Main.screening_store_steps top' (Main.screening_store_steps top w).2).1.1
    = None.
Proof.
  intros w top top'.
  assert (Hwin : cycles_within_window w top top').
  { split.
    - intros i j _ _ _. reflexivity.
    - intros p e i _ _ _. reflexivity. }
  assert (Hsub : ∀ q, q ∈ top' →
            Scanner.token_address q ∈ Scanner.token_address <$> top).
  { intros q Hq. apply elem_of_cons in Hq as [-> | Hq].
    - simpl. apply elem_of_cons. right. apply elem_of_cons. by left.
    - apply elem_of_cons in Hq as [-> | Hq].
      + simpl. apply elem_of_cons. by left.
      + by apply elem_of_nil in Hq. }
  split; [exact Hwin|]. split; [exact Hsub|]. split; [reflexivity|].
  exact (second_cycle_notifies_nothing w top top' Hwin Hsub).
Defined.

(** ** The wallet tracker *)

Section Wallets.
Import WalletTracker.



End Wallets.




